(** * Customer churn demo: the explanation rules and the feature encoder

    A shallow embedding of [app/app.py]: the rule table
    [generate_reasons_with_severity], the severity banner computed from its
    result, and the construction of the one-row frame [input_data] that is
    handed to the classifier.

    Numbers.  [tenure] comes from an integer slider and is a Python [int]:
    it is modelled as [Z].  The charges come from [st.number_input] and are
    finite floats; every finite float is a rational and Python compares a
    float with an [int] literal exactly, so charges and the cells of the
    frame are modelled as [Q].  Strings are kept as strings: the code
    compares them with [==] and builds column names from them. *)

From Stdlib Require Import List String ZArith QArith Bool Lia Lqa.
Import ListNotations.

Local Open Scope string_scope.
Local Open Scope list_scope.

(** ** The customer profile

    The six widgets of the input section (lines 120 to 126), with the value
    each of them returns. *)

Record CustomerProfile : Type := mkProfile {
  tenure            : Z;
  monthly_charges   : Q;
  total_charges     : Q;
  contract          : string;
  internet_service  : string;
  paperless_billing : string
}.

(** The choices the three select boxes offer. *)
Definition contract_options : list string :=
  ["Month-to-month"; "One year"; "Two year"].
Definition internet_service_options : list string :=
  ["DSL"; "Fiber optic"; "No"].
Definition paperless_billing_options : list string :=
  ["Yes"; "No"].

(** ** The reason generator *)

Module Reasoner.

(** A reason is the triple (title, severity, explanation) of three Python
    strings. *)
Definition ReasonEntry : Type := (string * string * string)%type.

Definition title (r : ReasonEntry) : string := fst (fst r).
Definition severity (r : ReasonEntry) : string := snd (fst r).
Definition explanation (r : ReasonEntry) : string := snd r.

(** [reasons.append(r)] on the local list. *)
Definition append (reasons : list ReasonEntry) (r : ReasonEntry)
  : list ReasonEntry := (reasons ++ [r])%list.

(** Python's [x > c] on a float and an integer literal. *)
Definition Qgtb (x c : Q) : bool := negb (Qle_bool x c).

Definition low_tenure : ReasonEntry :=
  ("Low tenure", "High",
   "Customer has a short relationship with the company.").
Definition moderate_tenure : ReasonEntry :=
  ("Moderate tenure", "Medium",
   "Customer loyalty is not fully established.").
Definition flexible_contract : ReasonEntry :=
  ("Flexible contract", "High",
   "Month-to-month contracts are associated with higher churn risk.").
Definition long_term_contract : ReasonEntry :=
  ("Long-term contract", "Low",
   "Long-term contracts reduce churn risk.").
Definition high_monthly_charges : ReasonEntry :=
  ("High monthly charges", "High",
   "Customer may be sensitive to pricing.").
Definition moderate_monthly_charges : ReasonEntry :=
  ("Moderate monthly charges", "Medium",
   "Pricing level can influence churn.").
Definition fiber_optic_service : ReasonEntry :=
  ("Fiber optic service", "Medium",
   "Higher service expectations may increase churn.").
Definition paperless : ReasonEntry :=
  ("Paperless billing", "Low",
   "Digital billing users are often more flexible to switch.").

(** Lines 29 to 55.  The local list [reasons] is threaded through the five
    statements in the order of the source. *)
Definition generate_reasons_with_severity
    (tenure : Z) (monthly_charges : Q)
    (contract internet_service paperless_billing : string)
  : list ReasonEntry :=
  let reasons := [] in
  let reasons :=
    if (tenure <? 12)%Z then append reasons low_tenure
    else if (tenure <? 24)%Z then append reasons moderate_tenure
    else reasons in
  let reasons :=
    if contract =? "Month-to-month" then append reasons flexible_contract
    else append reasons long_term_contract in
  let reasons :=
    if Qgtb monthly_charges 70 then append reasons high_monthly_charges
    else if Qgtb monthly_charges 50 then append reasons moderate_monthly_charges
    else reasons in
  let reasons :=
    if internet_service =? "Fiber optic" then append reasons fiber_optic_service
    else reasons in
  let reasons :=
    if paperless_billing =? "Yes" then append reasons paperless
    else reasons in
  reasons.

(** The call of line 176: the total charges are not passed. *)
Definition explain (p : CustomerProfile) : list ReasonEntry :=
  generate_reasons_with_severity
    (tenure p) (monthly_charges p) (contract p) (internet_service p)
    (paperless_billing p).

(** Lines 182 and 206 to 214: the first three drivers, the list of
    severities and the call the banner makes. *)
Definition top_drivers (reasons : list ReasonEntry) : list ReasonEntry :=
  firstn 3 reasons.

Definition severities (reasons : list ReasonEntry) : list string :=
  map severity reasons.

(** Python's [x in xs] on a list of strings. *)
Definition str_in (x : string) (xs : list string) : bool :=
  existsb (String.eqb x) xs.

Inductive Banner : Type := st_error | st_warning | st_success.

Definition banner (reasons : list ReasonEntry) : Banner :=
  let severities := severities reasons in
  if str_in "High" severities then st_error
  else if str_in "Medium" severities then st_warning
  else st_success.

(** The (title, severity) pairs and the titles of a list of reasons. *)
Definition heads (reasons : list ReasonEntry) : list (string * string) :=
  map fst reasons.
Definition titles (reasons : list ReasonEntry) : list string :=
  map title reasons.

(** The entry the contract rule emits for a profile. *)
Definition contract_entry (p : CustomerProfile) : ReasonEntry :=
  if contract p =? "Month-to-month" then flexible_contract
  else long_term_contract.

(** What each of the four conditional rules contributes, rule by rule. *)
Definition tenure_reasons (tenure : Z) : list ReasonEntry :=
  if (tenure <? 12)%Z then [low_tenure]
  else if (tenure <? 24)%Z then [moderate_tenure]
  else [].
Definition monthly_reasons (monthly_charges : Q) : list ReasonEntry :=
  if Qgtb monthly_charges 70 then [high_monthly_charges]
  else if Qgtb monthly_charges 50 then [moderate_monthly_charges]
  else [].
Definition internet_reasons (internet_service : string) : list ReasonEntry :=
  if internet_service =? "Fiber optic" then [fiber_optic_service] else [].
Definition paperless_reasons (paperless_billing : string)
  : list ReasonEntry :=
  if paperless_billing =? "Yes" then [paperless] else [].

End Reasoner.

(** ** A one-row data frame

    [input_data] is a pandas frame with the single index label [0].  It is
    modelled by its row: the ordered list of (column label, cell).  Column
    labels may repeat, as pandas allows, and every operation below acts on
    all columns carrying the label it is given, as pandas does. *)

Module Frame.

Inductive exn : Type := KeyError | ValueError.

Inductive result (A : Type) : Type :=
| Ok (a : A)
| Raise (e : exn).
Arguments Ok {A} a.
Arguments Raise {A} e.

Definition bind {A B : Type} (r : result A) (k : A -> result B) : result B :=
  match r with
  | Ok a => k a
  | Raise e => Raise e
  end.

Notation "x <- r ;; k" := (bind r (fun x => k))
  (at level 61, r at next level, right associativity).

Definition DataFrame : Type := list (string * Q).

Definition columns (df : DataFrame) : list string := map fst df.
Definition values (df : DataFrame) : list Q := map snd df.

(** [pd.DataFrame(0, index=[0], columns=cols)]. *)
Definition zeros (cols : list string) : DataFrame :=
  map (fun c => (c, 0%Q)) cols.

(** [key in df.columns]. *)
Definition has_column (key : string) (df : DataFrame) : bool :=
  existsb (String.eqb key) (columns df).

(** [df[key] = v] for a scalar [v]: every column labelled [key] is
    overwritten; when there is none a new column is appended on the right. *)
Definition setitem (key : string) (v : Q) (df : DataFrame) : DataFrame :=
  if has_column key df
  then map (fun cell => if fst cell =? key then (fst cell, v) else cell) df
  else (df ++ [(key, v)])%list.

(** The positions of the columns labelled [key], counted from [i]. *)
Fixpoint get_loc_from (i : nat) (key : string) (cols : list string)
  : list nat :=
  match cols with
  | [] => []
  | c :: cols' =>
      ((if c =? key then [i] else []) ++ get_loc_from (S i) key cols')%list
  end.

(** The positions selected by a list of labels, label after label. *)
Definition get_indexer (keys : list string) (df : DataFrame) : list nat :=
  flat_map (fun k => get_loc_from 0 k (columns df)) keys.

(** [df[keys]] for a list of labels: the selected cells of the row, or
    [KeyError] when a label names no column. *)
Definition getitem_list (keys : list string) (df : DataFrame)
  : result (list Q) :=
  if forallb (fun k => has_column k df) keys
  then Ok (map (fun i => nth i (values df) 0%Q) (get_indexer keys df))
  else Raise KeyError.

(** [df.iloc[:, i] = v]. *)
Fixpoint iset (i : nat) (v : Q) (df : DataFrame) : DataFrame :=
  match df, i with
  | [], _ => []
  | (c, _) :: df', O => (c, v) :: df'
  | cell :: df', S j => cell :: iset j v df'
  end.

(** [df[keys] = arr] for a one-row array [arr]: the selected positions
    receive the entries of [arr] in order; [ValueError] ("Columns must be
    same length as key") when the array has another width. *)
Definition setitem_list (keys : list string) (arr : list Q) (df : DataFrame)
  : result DataFrame :=
  if forallb (fun k => has_column k df) keys
  then
    let ilocs := get_indexer keys df in
    if (List.length arr =? List.length ilocs)%nat
    then Ok (fold_left (fun d iv => iset (fst iv) (snd iv) d)
                       (combine ilocs arr) df)
    else Raise ValueError
  else Raise KeyError.

(** The cell under a label (the leftmost one when the label repeats). *)
Fixpoint lookup (key : string) (df : DataFrame) : option Q :=
  match df with
  | [] => None
  | (c, x) :: df' => if c =? key then Some x else lookup key df'
  end.

(** The cells under a label, from left to right. *)
Definition cells (key : string) (df : DataFrame) : list Q :=
  map snd (filter (fun cell => fst cell =? key) df).

(** The positional writes of [setitem_list]. *)
Definition iset_all (writes : list (nat * Q)) (df : DataFrame) : DataFrame :=
  fold_left (fun d iv => iset (fst iv) (snd iv) d) writes df.

End Frame.

(** ** The feature encoder *)

Module Encoder.

Import Frame.

(** The fitted scaler is an artifact loaded from disk.  Its [transform]
    takes the one-row batch and either returns the transformed row or
    raises. *)
Definition Scaler : Type := list Q -> result (list Q).

Definition numeric_columns : list string :=
  ["tenure"; "MonthlyCharges"; "TotalCharges"].

(** Lines 133 to 137. *)
Definition assign_numeric (feature_columns : list string)
    (p : CustomerProfile) : DataFrame :=
  let input_data := zeros feature_columns in
  let input_data := setitem "tenure" (inject_Z (tenure p)) input_data in
  let input_data := setitem "MonthlyCharges" (monthly_charges p) input_data in
  let input_data := setitem "TotalCharges" (total_charges p) input_data in
  input_data.

(** Lines 140 to 142: the right-hand side is evaluated first. *)
Definition apply_scaling (scaler : Scaler) (input_data : DataFrame)
  : result DataFrame :=
  batch <- getitem_list numeric_columns input_data ;;
  scaled <- scaler batch ;;
  setitem_list numeric_columns scaled input_data.

(** Lines 145 to 152. *)
Definition encode_categoricals (p : CustomerProfile) (input_data : DataFrame)
  : DataFrame :=
  let input_data :=
    if negb (contract p =? "Month-to-month")
       && has_column ("Contract_" ++ contract p)%string input_data
    then setitem ("Contract_" ++ contract p)%string 1%Q input_data
    else input_data in
  let input_data :=
    if negb (internet_service p =? "DSL")
       && has_column ("InternetService_" ++ internet_service p)%string input_data
    then setitem ("InternetService_" ++ internet_service p)%string 1%Q input_data
    else input_data in
  let input_data :=
    if (paperless_billing p =? "Yes")
       && has_column "PaperlessBilling" input_data
    then setitem "PaperlessBilling" 1%Q input_data
    else input_data in
  input_data.

(** Lines 133 to 152 as a whole: the frame handed to [predict_proba]. *)
Definition input_data (feature_columns : list string) (scaler : Scaler)
    (p : CustomerProfile) : result DataFrame :=
  input_data <- apply_scaling scaler (assign_numeric feature_columns p) ;;
  Ok (encode_categoricals p input_data).

(** The batch the scaler receives. *)
Definition scaler_batch (feature_columns : list string) (p : CustomerProfile)
  : list Q :=
  let df := assign_numeric feature_columns p in
  map (fun i => nth i (values df) 0%Q) (get_indexer numeric_columns df).

(** The numeric labels that the feature list lacks. *)
Definition missing_numeric (feature_columns : list string) : list string :=
  filter (fun k => negb (existsb (String.eqb k) feature_columns))
         numeric_columns.

(** The frame after a successful scaling that returned the row [scaled]. *)
Definition scaled_frame (feature_columns : list string)
    (p : CustomerProfile) (scaled : list Q) : DataFrame :=
  let df := assign_numeric feature_columns p in
  iset_all (combine (get_indexer numeric_columns df) scaled) df.

(** What an indicator column is expected to hold: nothing when the feature
    list lacks the label, else 1 or 0. *)
Definition indicator (feature_columns : list string) (label : string)
    (on : bool) : option Q :=
  if existsb (String.eqb label) feature_columns
  then Some (if on then 1%Q else 0%Q)
  else None.

(** What all the columns carrying an indicator label are expected to hold:
    as many cells as the feature list names the label, each 1 or each 0. *)
Definition indicator_cells (feature_columns : list string) (label : string)
    (on : bool) : list Q :=
  repeat (if on then 1%Q else 0%Q)
         (count_occ string_dec feature_columns label).

(** A standard scaler fitted on [n] features: it rejects a batch of another
    width and standardises each entry otherwise. *)
Fixpoint standardise (xs : list Q) (params : list (Q * Q)) : list Q :=
  match xs, params with
  | x :: xs', (mean, scale) :: params' =>
      ((x - mean) / scale)%Q :: standardise xs' params'
  | _, _ => []
  end.

Definition standard_scaler (params : list (Q * Q)) : Scaler :=
  fun batch =>
    if (List.length batch =? List.length params)%nat
    then Ok (standardise batch params)
    else Raise ValueError.

End Encoder.

(** ** Sample data *)

Module Samples.

Definition profile_five_reasons : CustomerProfile :=
  mkProfile 12 80 800 "Month-to-month" "Fiber optic" "Yes".

Definition profile_one_reason : CustomerProfile :=
  mkProfile 30 40 800 "Two year" "DSL" "No".

Definition profile_one_year : CustomerProfile :=
  mkProfile 5 70 350 "One year" "No" "Yes".

Definition telco_columns : list string :=
  ["tenure"; "MonthlyCharges"; "TotalCharges"; "PaperlessBilling";
   "Contract_One year"; "Contract_Two year";
   "InternetService_Fiber optic"; "InternetService_No"].

Definition telco_scaler : Encoder.Scaler :=
  Encoder.standard_scaler [(32, 24); (65, 30); (2280, 2266)]%Q.

(** A feature list without the total charges, and one without the column
    of one-year contracts. *)
Definition columns_without_total : list string :=
  ["tenure"; "MonthlyCharges"].

Definition columns_without_one_year : list string :=
  ["tenure"; "MonthlyCharges"; "TotalCharges"; "PaperlessBilling";
   "Contract_Two year"; "InternetService_Fiber optic"; "InternetService_No"].

(** A scaler fitted on two features only. *)
Definition two_feature_scaler : Encoder.Scaler :=
  Encoder.standard_scaler [(32, 24); (65, 30)]%Q.

End Samples.

(** ** The rule table

    The eight entries the generator can emit, in the order in which the
    source appends them (lines 35 to 53), and the test that one list of
    entries is a subsequence of another. *)

Module RuleTable.

Import Reasoner.

Definition rule_table : list ReasonEntry :=
  [low_tenure; moderate_tenure; flexible_contract; long_term_contract;
   high_monthly_charges; moderate_monthly_charges; fiber_optic_service;
   paperless].

(** Python's [==] on two triples of strings. *)
Definition entry_eqb (r1 r2 : ReasonEntry) : bool :=
  (title r1 =? title r2) && (severity r1 =? severity r2)
  && (explanation r1 =? explanation r2).

(** [xs] can be obtained from [ys] by deleting entries. *)
Fixpoint subsequence (xs ys : list ReasonEntry) : bool :=
  match xs, ys with
  | [], _ => true
  | _ :: _, [] => false
  | x :: xs', y :: ys' =>
      if entry_eqb x y then subsequence xs' ys' else subsequence xs ys'
  end.

(** The number of conditional rules that fire for a profile. *)
Definition conditional_rules_fired (p : CustomerProfile) : nat :=
  (if (tenure p <? 24)%Z then 1 else 0)
  + (if Qgtb (monthly_charges p) 50 then 1 else 0)
  + (if internet_service p =? "Fiber optic" then 1 else 0)
  + (if paperless_billing p =? "Yes" then 1 else 0).

End RuleTable.

(** ** The reason generator as a Python function

    To speak of what the function reads and writes, its body is also kept
    as syntax and run by a small interpreter of the statements it is made
    of.  A state has the local scope of the call and the global scope of
    the module; a name is looked up in the local scope first and in the
    global scope next; an assignment binds in the local scope; [x.append]
    changes the list [x] is bound to, in whichever scope that is. *)

Module Python.

Import Reasoner.

Inductive value : Type :=
| VNone
| VBool (b : bool)
| VInt (z : Z)
| VFloat (x : Q)
| VStr (s : string)
| VTuple (r : ReasonEntry)
| VList (l : list ReasonEntry)
| VObject (id : nat).

Inductive expr : Type :=
| EName (x : string)
| EInt (z : Z)
| EStr (s : string)
| ETuple (r : ReasonEntry)
| EList
| ELt (e1 e2 : expr)
| EGt (e1 e2 : expr)
| EEq (e1 e2 : expr).

Inductive stmt : Type :=
| SPass
| SSeq (s1 s2 : stmt)
| SAssign (x : string) (e : expr)
| SAppend (x : string) (e : expr)
| SIf (c : expr) (s1 s2 : stmt)
| SReturn (e : expr).

Definition scope : Type := list (string * value).

Record state : Type := mkState { locals : scope; globals : scope }.

Fixpoint find_name (x : string) (sc : scope) : option value :=
  match sc with
  | [] => None
  | (y, v) :: sc' => if y =? x then Some v else find_name x sc'
  end.

Fixpoint bind_name (x : string) (v : value) (sc : scope) : scope :=
  match sc with
  | [] => [(x, v)]
  | (y, w) :: sc' => if y =? x then (y, v) :: sc' else (y, w) :: bind_name x v sc'
  end.

Definition resolve (x : string) (st : state) : option value :=
  match find_name x (locals st) with
  | Some v => Some v
  | None => find_name x (globals st)
  end.

(** Python's [==] on two strings. *)
Definition py_str_eq (a b : string) : bool := String.eqb a b.

(** Python's [<] on numbers, [None] standing for a [TypeError]. *)
Definition py_lt (v1 v2 : value) : option bool :=
  match v1, v2 with
  | VInt a, VInt b => Some (a <? b)%Z
  | VInt a, VFloat y => Some (Qgtb y (inject_Z a))
  | VFloat x, VInt b => Some (Qgtb (inject_Z b) x)
  | VFloat x, VFloat y => Some (Qgtb y x)
  | _, _ => None
  end.

Definition py_eq (v1 v2 : value) : option bool :=
  match v1, v2 with
  | VStr a, VStr b => Some (py_str_eq a b)
  | VInt a, VInt b => Some (a =? b)%Z
  | VStr _, (VInt _ | VFloat _) => Some false
  | (VInt _ | VFloat _), VStr _ => Some false
  | _, _ => None
  end.

Fixpoint eval (e : expr) (st : state) : option value :=
  match e with
  | EName x => resolve x st
  | EInt z => Some (VInt z)
  | EStr s => Some (VStr s)
  | ETuple r => Some (VTuple r)
  | EList => Some (VList [])
  | ELt e1 e2 =>
      match eval e1 st, eval e2 st with
      | Some v1, Some v2 => option_map VBool (py_lt v1 v2)
      | _, _ => None
      end
  | EGt e1 e2 =>
      match eval e1 st, eval e2 st with
      | Some v1, Some v2 => option_map VBool (py_lt v2 v1)
      | _, _ => None
      end
  | EEq e1 e2 =>
      match eval e1 st, eval e2 st with
      | Some v1, Some v2 => option_map VBool (py_eq v1 v2)
      | _, _ => None
      end
  end.

Inductive outcome : Type :=
| Normal (st : state)
| Returned (v : value) (st : state)
| Raised.

(** [x.append(r)]: the list is changed where [x] is bound. *)
Definition append_to (x : string) (r : ReasonEntry) (st : state) : outcome :=
  match find_name x (locals st) with
  | Some (VList l) =>
      Normal (mkState (bind_name x (VList (l ++ [r])) (locals st)) (globals st))
  | Some _ => Raised
  | None =>
      match find_name x (globals st) with
      | Some (VList l) =>
          Normal (mkState (locals st)
                          (bind_name x (VList (l ++ [r])) (globals st)))
      | _ => Raised
      end
  end.

Fixpoint exec (s : stmt) (st : state) : outcome :=
  match s with
  | SPass => Normal st
  | SSeq s1 s2 =>
      match exec s1 st with
      | Normal st' => exec s2 st'
      | o => o
      end
  | SAssign x e =>
      match eval e st with
      | Some v => Normal (mkState (bind_name x v (locals st)) (globals st))
      | None => Raised
      end
  | SAppend x e =>
      match eval e st with
      | Some (VTuple r) => append_to x r st
      | _ => Raised
      end
  | SIf c s1 s2 =>
      match eval c st with
      | Some (VBool true) => exec s1 st
      | Some (VBool false) => exec s2 st
      | _ => Raised
      end
  | SReturn e =>
      match eval e st with
      | Some v => Returned v st
      | None => Raised
      end
  end.

Record funcdef : Type := mkFunc { params : list string; body : stmt }.

(** A call: the parameters are bound in a fresh local scope, the body runs,
    and the caller gets the returned value and the global scope as the call
    left it. *)
Definition call (f : funcdef) (args : list value) (G : scope)
  : option (value * scope) :=
  if (List.length args =? List.length (params f))%nat
  then match exec (body f) (mkState (combine (params f) args) G) with
       | Returned v st => Some (v, globals st)
       | Normal st => Some (VNone, globals st)
       | Raised => None
       end
  else None.

Notation "s1 ;; s2" := (SSeq s1 s2) (at level 61, right associativity).

(** Lines 29 to 55, statement by statement. *)
Definition generate_reasons_def : funcdef :=
  mkFunc
    ["tenure"; "monthly_charges"; "contract"; "internet_service";
     "paperless_billing"]
    (SAssign "reasons" EList ;;
     SIf (ELt (EName "tenure") (EInt 12))
         (SAppend "reasons" (ETuple low_tenure))
         (SIf (ELt (EName "tenure") (EInt 24))
              (SAppend "reasons" (ETuple moderate_tenure))
              SPass) ;;
     SIf (EEq (EName "contract") (EStr "Month-to-month"))
         (SAppend "reasons" (ETuple flexible_contract))
         (SAppend "reasons" (ETuple long_term_contract)) ;;
     SIf (EGt (EName "monthly_charges") (EInt 70))
         (SAppend "reasons" (ETuple high_monthly_charges))
         (SIf (EGt (EName "monthly_charges") (EInt 50))
              (SAppend "reasons" (ETuple moderate_monthly_charges))
              SPass) ;;
     SIf (EEq (EName "internet_service") (EStr "Fiber optic"))
         (SAppend "reasons" (ETuple fiber_optic_service))
         SPass ;;
     SIf (EEq (EName "paperless_billing") (EStr "Yes"))
         (SAppend "reasons" (ETuple paperless))
         SPass ;;
     SReturn (EName "reasons")).

(** The module-level names the widgets of lines 120 to 126 assign. *)
Definition widget_globals (p : CustomerProfile) : scope :=
  [("tenure", VInt (tenure p));
   ("monthly_charges", VFloat (monthly_charges p));
   ("total_charges", VFloat (total_charges p));
   ("contract", VStr (contract p));
   ("internet_service", VStr (internet_service p));
   ("paperless_billing", VStr (paperless_billing p))].

Fixpoint eval_args (es : list expr) (st : state) : option (list value) :=
  match es with
  | [] => Some []
  | e :: es' =>
      match eval e st, eval_args es' st with
      | Some v, Some vs => Some (v :: vs)
      | _, _ => None
      end
  end.

(** The call of line 176, made at module level: the arguments are the
    module-level names. *)
Definition line_176 (G : scope) : option (value * scope) :=
  match eval_args [EName "tenure"; EName "monthly_charges";
                   EName "contract"; EName "internet_service";
                   EName "paperless_billing"] (mkState [] G) with
  | Some args => call generate_reasons_def args G
  | None => None
  end.

End Python.

(** * Properties of the reason generator *)

Module ReasonerFacts.

Import Reasoner Samples.

Lemma Qgtb_true_iff (x c : Q) : Qgtb x c = true <-> (c < x)%Q.
Proof.
  unfold Qgtb. rewrite negb_true_iff, <- not_true_iff_false, Qle_bool_iff.
  split; [apply Qnot_le_lt | apply Qlt_not_le].
Qed.

Lemma Qgtb_false_iff (x c : Q) : Qgtb x c = false <-> (x <= c)%Q.
Proof.
  unfold Qgtb. rewrite negb_false_iff. apply Qle_bool_iff.
Qed.

(** Numerically equal charges take the same branches. *)
Lemma Qgtb_compat (x y c : Q) : (x == y)%Q -> Qgtb x c = Qgtb y c.
Proof.
  intros E. unfold Qgtb. now rewrite E.
Qed.

(** The list is the concatenation of what the five rules emit, in the order
    of the source. *)
Lemma explain_rules (p : CustomerProfile) :
  explain p =
    (tenure_reasons (tenure p) ++ [contract_entry p]
     ++ monthly_reasons (monthly_charges p)
     ++ internet_reasons (internet_service p)
     ++ paperless_reasons (paperless_billing p))%list.
Proof.
  unfold explain, generate_reasons_with_severity, append, tenure_reasons,
    contract_entry, monthly_reasons, internet_reasons, paperless_reasons.
  destruct (tenure p <? 12)%Z; [| destruct (tenure p <? 24)%Z];
    destruct (contract p =? "Month-to-month");
    (destruct (Qgtb (monthly_charges p) 70);
       [| destruct (Qgtb (monthly_charges p) 50)]);
    destruct (internet_service p =? "Fiber optic");
    destruct (paperless_billing p =? "Yes"); reflexivity.
Qed.

(** ** One rule at a time *)

Lemma tenure_reasons_cases (t : Z) :
  (t < 12 /\ tenure_reasons t = [low_tenure])%Z \/
  (12 <= t < 24 /\ tenure_reasons t = [moderate_tenure])%Z \/
  (24 <= t /\ tenure_reasons t = [])%Z.
Proof.
  unfold tenure_reasons.
  destruct (Z.ltb_spec t 12); [left; auto |].
  destruct (Z.ltb_spec t 24); [right; left | right; right]; split;
    auto; lia.
Qed.

Lemma contract_entry_cases (p : CustomerProfile) :
  (contract p = "Month-to-month" /\ contract_entry p = flexible_contract) \/
  (contract p <> "Month-to-month" /\ contract_entry p = long_term_contract).
Proof.
  unfold contract_entry.
  destruct (String.eqb_spec (contract p) "Month-to-month"); auto.
Qed.

Lemma monthly_reasons_cases (m : Q) :
  (70 < m /\ monthly_reasons m = [high_monthly_charges])%Q \/
  ((50 < m /\ m <= 70)%Q /\ monthly_reasons m = [moderate_monthly_charges]) \/
  (m <= 50 /\ monthly_reasons m = [])%Q.
Proof.
  unfold monthly_reasons.
  destruct (Qgtb m 70) eqn:E70.
  - left. apply Qgtb_true_iff in E70. auto.
  - apply Qgtb_false_iff in E70. destruct (Qgtb m 50) eqn:E50.
    + right; left. apply Qgtb_true_iff in E50. auto.
    + right; right. apply Qgtb_false_iff in E50. auto.
Qed.

Lemma internet_reasons_cases (i : string) :
  (i = "Fiber optic" /\ internet_reasons i = [fiber_optic_service]) \/
  (i <> "Fiber optic" /\ internet_reasons i = []).
Proof.
  unfold internet_reasons. destruct (String.eqb_spec i "Fiber optic"); auto.
Qed.

Lemma paperless_reasons_cases (b : string) :
  (b = "Yes" /\ paperless_reasons b = [paperless]) \/
  (b <> "Yes" /\ paperless_reasons b = []).
Proof.
  unfold paperless_reasons. destruct (String.eqb_spec b "Yes"); auto.
Qed.

(** Membership in the image of the list, rule by rule. *)
Lemma in_map_explain {A : Type} (f : ReasonEntry -> A) (x : A)
    (p : CustomerProfile) :
  In x (map f (explain p)) <->
  In x (map f (tenure_reasons (tenure p))) \/
  x = f (contract_entry p) \/
  In x (map f (monthly_reasons (monthly_charges p))) \/
  In x (map f (internet_reasons (internet_service p))) \/
  In x (map f (paperless_reasons (paperless_billing p))).
Proof.
  rewrite explain_rules, !map_app, !in_app_iff. simpl.
  intuition congruence.
Qed.

Lemma in_explain (r : ReasonEntry) (p : CustomerProfile) :
  In r (explain p) <->
  In r (tenure_reasons (tenure p)) \/
  r = contract_entry p \/
  In r (monthly_reasons (monthly_charges p)) \/
  In r (internet_reasons (internet_service p)) \/
  In r (paperless_reasons (paperless_billing p)).
Proof.
  rewrite <- (map_id (explain p)), in_map_explain, !map_id. reflexivity.
Qed.

(** Replace, in a hypothesis, the rule it mentions by the entries the rule
    emits, one case per outcome of its tests. *)
Ltac expose H :=
  let E := fresh "E" in
  match type of H with
  | context [tenure_reasons ?t] =>
      destruct (tenure_reasons_cases t) as [[? E] | [[? E] | [? E]]];
      rewrite E in H
  | context [contract_entry ?p] =>
      destruct (contract_entry_cases p) as [[? E] | [? E]]; rewrite E in H
  | context [monthly_reasons ?m] =>
      destruct (monthly_reasons_cases m) as [[? E] | [[[? ?] E] | [? E]]];
      rewrite E in H
  | context [internet_reasons ?i] =>
      destruct (internet_reasons_cases i) as [[? E] | [? E]]; rewrite E in H
  | context [paperless_reasons ?b] =>
      destruct (paperless_reasons_cases b) as [[? E] | [? E]]; rewrite E in H
  end;
  simpl in H.

(** A membership hypothesis about a rule that cannot have emitted the
    element. *)
Ltac wrong_rule H := expose H; intuition discriminate.

(** The same for the goal. *)
Ltac expose_goal :=
  let E := fresh "E" in
  match goal with
  | |- context [tenure_reasons ?t] =>
      destruct (tenure_reasons_cases t) as [[? E] | [[? E] | [? E]]];
      rewrite E
  | |- context [contract_entry ?p] =>
      destruct (contract_entry_cases p) as [[? E] | [? E]]; rewrite E
  | |- context [monthly_reasons ?m] =>
      destruct (monthly_reasons_cases m) as [[? E] | [[[? ?] E] | [? E]]];
      rewrite E
  end;
  simpl.

Lemma tenure_reasons_length (t : Z) :
  (List.length (tenure_reasons t) <= 1)%nat.
Proof. expose_goal; lia. Qed.

Lemma monthly_reasons_length (m : Q) :
  (List.length (monthly_reasons m) <= 1)%nat.
Proof. expose_goal; lia. Qed.

Lemma internet_reasons_length (i : string) :
  (List.length (internet_reasons i) <= 1)%nat.
Proof. unfold internet_reasons. destruct (i =? _); simpl; lia. Qed.

Lemma paperless_reasons_length (b : string) :
  (List.length (paperless_reasons b) <= 1)%nat.
Proof. unfold paperless_reasons. destruct (b =? _); simpl; lia. Qed.

(** The banner of an arbitrary list of reasons: the membership test ranges
    over the whole list. *)
Lemma str_in_severities (s : string) (reasons : list ReasonEntry) :
  str_in s (severities reasons) = true <->
  exists r, In r reasons /\ severity r = s.
Proof.
  unfold str_in, severities. rewrite existsb_exists. split.
  - intros [x [Hin Heq]]. apply in_map_iff in Hin.
    destruct Hin as [r [Hr Hin]]. exists r. split; [exact Hin |].
    apply String.eqb_eq in Heq. congruence.
  - intros [r [Hin Hs]]. exists (severity r). split.
    + now apply in_map.
    + subst s. apply String.eqb_refl.
Qed.

Lemma banner_spec (reasons : list ReasonEntry) :
  (banner reasons = st_error <->
     exists r, In r reasons /\ severity r = "High") /\
  (banner reasons = st_warning <->
     (~ exists r, In r reasons /\ severity r = "High") /\
     exists r, In r reasons /\ severity r = "Medium") /\
  (banner reasons = st_success <->
     (~ exists r, In r reasons /\ severity r = "High") /\
     ~ exists r, In r reasons /\ severity r = "Medium").
Proof.
  unfold banner.
  rewrite <- !str_in_severities.
  destruct (str_in "High" (severities reasons));
    destruct (str_in "Medium" (severities reasons));
    intuition (try discriminate; try congruence).
Qed.

(** C1 (as stated, refuted): the profile with a two-year contract, thirty
    months of tenure, monthly charges of 40, DSL and no paperless billing
    receives a single reason, so the lower bound of two entries fails. *)
Lemma explain_two_entries_refuted :
  explain profile_one_reason = [long_term_contract] /\
  ~ (2 <= List.length (explain profile_one_reason) <= 5)%nat.
Proof.
  split; [reflexivity |]. vm_compute. lia.
Qed.

(** C1 (amended): for every profile [explain] returns between one and five
    entries, and the entry of the contract rule is always among them: the
    flexible-contract entry exactly for a month-to-month contract, the
    long-term entry exactly otherwise. *)
Theorem explain_length_and_contract_entry (p : CustomerProfile) :
  (1 <= List.length (explain p) <= 5)%nat /\
  In (contract_entry p) (explain p) /\
  (In flexible_contract (explain p) <-> contract p = "Month-to-month") /\
  (In long_term_contract (explain p) <-> contract p <> "Month-to-month").
Proof.
  split; [| split; [| split]].
  - rewrite explain_rules, !length_app. simpl.
    pose proof (tenure_reasons_length (tenure p)).
    pose proof (monthly_reasons_length (monthly_charges p)).
    pose proof (internet_reasons_length (internet_service p)).
    pose proof (paperless_reasons_length (paperless_billing p)).
    lia.
  - apply in_explain. right; left; reflexivity.
  - rewrite in_explain. split.
    + intros [H | [H | [H | [H | H]]]];
        try (wrong_rule H); expose H; congruence.
    + intros H. right; left. unfold contract_entry.
      rewrite H. reflexivity.
  - rewrite in_explain. split.
    + intros [H | [H | [H | [H | H]]]];
        try (wrong_rule H); expose H; congruence.
    + intros H. right; left. unfold contract_entry.
      apply String.eqb_neq in H. rewrite H. reflexivity.
Qed.

(** C4: the tenure rule.  Below twelve months the list starts with the
    low-tenure entry (severity High); from twelve up to, not including,
    twenty-four months it starts with the moderate-tenure entry (severity
    Medium); from twenty-four months on no entry carries a tenure title.
    The tenure is any integer, negative ones included. *)
Theorem tenure_rule (p : CustomerProfile) :
  ((tenure p < 12)%Z ->
     hd_error (explain p) = Some low_tenure /\
     hd_error (heads (explain p)) = Some ("Low tenure", "High")) /\
  ((12 <= tenure p < 24)%Z ->
     hd_error (explain p) = Some moderate_tenure /\
     hd_error (heads (explain p)) = Some ("Moderate tenure", "Medium")) /\
  ((24 <= tenure p)%Z ->
     ~ In "Low tenure" (titles (explain p)) /\
     ~ In "Moderate tenure" (titles (explain p))).
Proof.
  unfold heads, titles. split; [| split]; intros Ht.
  - rewrite explain_rules.
    destruct (tenure_reasons_cases (tenure p)) as [[? E] | [[? E] | [? E]]];
      try lia.
    rewrite E. split; reflexivity.
  - rewrite explain_rules.
    destruct (tenure_reasons_cases (tenure p)) as [[? E] | [[? E] | [? E]]];
      try lia.
    rewrite E. split; reflexivity.
  - rewrite !in_map_explain.
    split; intros [H | [H | [H | [H | H]]]]; try (wrong_rule H);
      expose H; solve [lia | intuition discriminate].
Qed.

(** The three cases of the tenure rule at a tenure of 5, 12 and 24 months,
    and at a negative tenure. *)
Lemma tenure_rule_witness :
  hd_error (heads (explain (mkProfile 5 60 300 "One year" "DSL" "No")))
    = Some ("Low tenure", "High") /\
  hd_error (heads (explain (mkProfile (-3) 60 300 "One year" "DSL" "No")))
    = Some ("Low tenure", "High") /\
  hd_error (heads (explain (mkProfile 12 60 300 "One year" "DSL" "No")))
    = Some ("Moderate tenure", "Medium") /\
  ~ In "Moderate tenure"
       (titles (explain (mkProfile 24 60 300 "One year" "DSL" "No"))).
Proof.
  destruct (tenure_rule (mkProfile 5 60 300 "One year" "DSL" "No"))
    as [Hlow _].
  destruct (tenure_rule (mkProfile (-3) 60 300 "One year" "DSL" "No"))
    as [Hneg _].
  destruct (tenure_rule (mkProfile 12 60 300 "One year" "DSL" "No"))
    as [_ [Hmod _]].
  destruct (tenure_rule (mkProfile 24 60 300 "One year" "DSL" "No"))
    as [_ [_ Hnone]].
  split; [apply Hlow; simpl; lia |].
  split; [apply Hneg; simpl; lia |].
  split; [apply Hmod; simpl; lia |].
  apply Hnone; simpl; lia.
Defined.

(** C5: the monthly-charges rule.  The high entry is emitted exactly when
    the charges exceed 70, the moderate entry exactly when they exceed 50
    without exceeding 70, and no entry with a monthly-charges title is
    emitted otherwise.  Both thresholds are strict: charges of exactly 70
    give the moderate entry, charges of exactly 50 give none. *)
Theorem monthly_charges_rule (p : CustomerProfile) :
  (In ("High monthly charges", "High") (heads (explain p)) <->
     (70 < monthly_charges p)%Q) /\
  (In ("Moderate monthly charges", "Medium") (heads (explain p)) <->
     (50 < monthly_charges p)%Q /\ (monthly_charges p <= 70)%Q) /\
  (In "High monthly charges" (titles (explain p)) <->
     (70 < monthly_charges p)%Q) /\
  (In "Moderate monthly charges" (titles (explain p)) <->
     (50 < monthly_charges p)%Q /\ (monthly_charges p <= 70)%Q) /\
  ((monthly_charges p == 70)%Q ->
     In ("Moderate monthly charges", "Medium") (heads (explain p)) /\
     ~ In "High monthly charges" (titles (explain p))) /\
  ((monthly_charges p == 50)%Q ->
     ~ In "High monthly charges" (titles (explain p)) /\
     ~ In "Moderate monthly charges" (titles (explain p))).
Proof.
  assert (Hrules :
    (In ("High monthly charges", "High") (heads (explain p)) <->
       (70 < monthly_charges p)%Q) /\
    (In ("Moderate monthly charges", "Medium") (heads (explain p)) <->
       (50 < monthly_charges p)%Q /\ (monthly_charges p <= 70)%Q) /\
    (In "High monthly charges" (titles (explain p)) <->
       (70 < monthly_charges p)%Q) /\
    (In "Moderate monthly charges" (titles (explain p)) <->
       (50 < monthly_charges p)%Q /\ (monthly_charges p <= 70)%Q)).
  { unfold heads, titles. rewrite !in_map_explain.
    repeat match goal with |- _ /\ _ => split end.
    all: split.
    all: try (intros [H | [H | [H | [H | H]]]]; try (wrong_rule H);
              expose H; solve [intuition discriminate | auto]).
    all: intros H; right; right; left; expose_goal;
      solve [auto | destruct H; lra | lra]. }
  destruct Hrules as [H1 [H2 [H3 H4]]].
  repeat match goal with |- _ /\ _ => split end; try assumption.
  - intros E. rewrite H2, H3. split; [split |]; lra.
  - intros E. rewrite H3, H4. split; [| intros [F _]]; lra.
Qed.

(** The two boundary cases of the monthly-charges rule, at charges of
    exactly 70 and of exactly 50. *)
Lemma monthly_charges_rule_witness :
  (In ("Moderate monthly charges", "Medium")
      (heads (explain (mkProfile 30 70 800 "Two year" "DSL" "No"))) /\
   ~ In "High monthly charges"
        (titles (explain (mkProfile 30 70 800 "Two year" "DSL" "No")))) /\
  (~ In "High monthly charges"
        (titles (explain (mkProfile 30 50 800 "Two year" "DSL" "No"))) /\
   ~ In "Moderate monthly charges"
        (titles (explain (mkProfile 30 50 800 "Two year" "DSL" "No")))).
Proof.
  destruct (monthly_charges_rule (mkProfile 30 70 800 "Two year" "DSL" "No"))
    as [_ [_ [_ [_ [H70 _]]]]].
  destruct (monthly_charges_rule (mkProfile 30 50 800 "Two year" "DSL" "No"))
    as [_ [_ [_ [_ [_ H50]]]]].
  split; [apply H70 | apply H50]; reflexivity.
Defined.

(** C7: the two worked examples.  A customer with twelve months of tenure,
    monthly charges of 80, a month-to-month contract, fiber optic and
    paperless billing receives exactly the five entries moderate tenure
    (Medium), flexible contract (High), high monthly charges (High), fiber
    optic service (Medium) and paperless billing (Low), in this order; a
    customer with a two-year contract, DSL, no paperless billing, thirty
    months of tenure and monthly charges of 40 receives exactly the
    long-term contract entry (Low).  The total charges play no part. *)
Theorem explain_worked_examples (tc : Q) :
  explain (mkProfile 12 80 tc "Month-to-month" "Fiber optic" "Yes")
    = [moderate_tenure; flexible_contract; high_monthly_charges;
       fiber_optic_service; paperless] /\
  heads (explain (mkProfile 12 80 tc "Month-to-month" "Fiber optic" "Yes"))
    = [("Moderate tenure", "Medium"); ("Flexible contract", "High");
       ("High monthly charges", "High"); ("Fiber optic service", "Medium");
       ("Paperless billing", "Low")] /\
  explain (mkProfile 30 40 tc "Two year" "DSL" "No") = [long_term_contract] /\
  heads (explain (mkProfile 30 40 tc "Two year" "DSL" "No"))
    = [("Long-term contract", "Low")].
Proof.
  repeat split; reflexivity.
Qed.

(** C8: the severity banner of the reasons of a profile is the error banner
    (High) exactly when some entry of the whole list has severity High,
    else the warning banner (Medium) exactly when some entry has severity
    Medium, else the success banner (Low).  The test is a membership test
    on the severities of every entry ([banner_spec] holds of any list), not
    of the three top drivers only. *)
Theorem banner_of_explain (p : CustomerProfile) :
  (banner (explain p) = st_error <->
     exists r, In r (explain p) /\ severity r = "High") /\
  (banner (explain p) = st_warning <->
     (~ exists r, In r (explain p) /\ severity r = "High") /\
     exists r, In r (explain p) /\ severity r = "Medium") /\
  (banner (explain p) = st_success <->
     (~ exists r, In r (explain p) /\ severity r = "High") /\
     ~ exists r, In r (explain p) /\ severity r = "Medium").
Proof.
  exact (banner_spec (explain p)).
Qed.

(** An entry behind the third position decides the banner of a list. *)
Example banner_reads_past_top_drivers :
  banner [long_term_contract; paperless; paperless; low_tenure] = st_error /\
  banner (top_drivers [long_term_contract; paperless; paperless; low_tenure])
    = st_success.
Proof.
  split; reflexivity.
Qed.

(** C9: [explain] is a function of the profile alone.  Two profiles whose
    six fields agree (the charges as numbers) receive the same sequence of
    reasons: same titles, severities and explanations, in the same order.
    The embedding reads no state and returns nothing but the list. *)
Theorem explain_deterministic (p1 p2 : CustomerProfile) :
  tenure p1 = tenure p2 ->
  (monthly_charges p1 == monthly_charges p2)%Q ->
  (total_charges p1 == total_charges p2)%Q ->
  contract p1 = contract p2 ->
  internet_service p1 = internet_service p2 ->
  paperless_billing p1 = paperless_billing p2 ->
  explain p1 = explain p2.
Proof.
  intros Ht Hm _ Hc Hi Hb.
  unfold explain, generate_reasons_with_severity.
  rewrite Ht, Hc, Hi, Hb.
  rewrite (Qgtb_compat _ _ 70 Hm), (Qgtb_compat _ _ 50 Hm).
  reflexivity.
Qed.

(** Charges of 70 entered as 70 and as 140/2. *)
Lemma explain_deterministic_witness :
  explain (mkProfile 12 70 800 "One year" "Fiber optic" "Yes")
  = explain (mkProfile 12 (140 # 2) (1600 # 2) "One year" "Fiber optic" "Yes").
Proof.
  apply explain_deterministic; reflexivity.
Defined.

(** C10: two profiles that differ only in their total charges receive the
    same sequence of reasons. *)
Theorem explain_ignores_total_charges
    (t : Z) (m tc1 tc2 : Q) (c i b : string) :
  explain (mkProfile t m tc1 c i b) = explain (mkProfile t m tc2 c i b).
Proof.
  reflexivity.
Qed.

End ReasonerFacts.

(** * Properties of the frame operations *)

Module FrameFacts.

Import Frame.

Lemma has_column_In (key : string) (df : DataFrame) :
  has_column key df = true <-> In key (columns df).
Proof.
  unfold has_column. rewrite existsb_exists. split.
  - intros [c [Hin Heq]]. apply String.eqb_eq in Heq. now subst.
  - intros Hin. exists key. split; [exact Hin | apply String.eqb_refl].
Qed.

Lemma columns_zeros (cols : list string) : columns (zeros cols) = cols.
Proof.
  unfold columns, zeros. rewrite map_map. simpl. apply map_id.
Qed.

(** A scalar assignment keeps the columns when the label exists and adds
    one column on the right when it does not. *)
Lemma columns_setitem (key : string) (v : Q) (df : DataFrame) :
  columns (setitem key v df) =
    if has_column key df then columns df else (columns df ++ [key])%list.
Proof.
  unfold setitem. destruct (has_column key df).
  - unfold columns. rewrite map_map. apply map_ext.
    intros [c x]. simpl. now destruct (c =? key).
  - unfold columns. now rewrite map_app.
Qed.

Lemma has_column_setitem (k key : string) (v : Q) (df : DataFrame) :
  has_column k (setitem key v df) = has_column k df || (k =? key).
Proof.
  unfold has_column at 1. rewrite columns_setitem.
  destruct (has_column key df) eqn:Hkey.
  - fold (has_column k df). destruct (String.eqb_spec k key) as [-> |].
    + now rewrite Hkey.
    + now rewrite orb_false_r.
  - rewrite existsb_app. simpl. now rewrite orb_false_r.
Qed.

Lemma columns_iset (i : nat) (v : Q) (df : DataFrame) :
  columns (iset i v df) = columns df.
Proof.
  revert i. induction df as [| [c x] df IH]; intros [| i]; simpl;
    try reflexivity.
  now rewrite IH.
Qed.

Lemma columns_iset_all (writes : list (nat * Q)) (df : DataFrame) :
  columns (iset_all writes df) = columns df.
Proof.
  unfold iset_all. revert df.
  induction writes as [| [i v] writes IH]; intros df; simpl.
  - reflexivity.
  - now rewrite IH, columns_iset.
Qed.

(** ** Looking a label up *)

Lemma lookup_zeros (key : string) (cols : list string) :
  lookup key (zeros cols) =
    if existsb (String.eqb key) cols then Some 0%Q else None.
Proof.
  induction cols as [| c cols IH]; simpl; [reflexivity |].
  rewrite (String.eqb_sym key c). now destruct (c =? key).
Qed.

Lemma lookup_None (key : string) (df : DataFrame) :
  lookup key df = None <-> has_column key df = false.
Proof.
  unfold has_column. induction df as [| [c x] df IH]; simpl.
  - tauto.
  - rewrite (String.eqb_sym key c). destruct (c =? key); simpl.
    + split; discriminate.
    + exact IH.
Qed.

Lemma lookup_app (key : string) (df1 df2 : DataFrame) :
  lookup key (df1 ++ df2) =
    match lookup key df1 with
    | Some x => Some x
    | None => lookup key df2
    end.
Proof.
  induction df1 as [| [c x] df1 IH]; simpl; [reflexivity |].
  now destruct (c =? key).
Qed.

Lemma lookup_setitem_same (key : string) (v : Q) (df : DataFrame) :
  lookup key (setitem key v df) = Some v.
Proof.
  unfold setitem. destruct (has_column key df) eqn:Hkey.
  - unfold has_column in Hkey.
    induction df as [| [c x] df IH]; simpl in *; [discriminate |].
    rewrite (String.eqb_sym key c) in Hkey.
    destruct (c =? key) eqn:E; simpl.
    + now rewrite E.
    + rewrite E. now apply IH.
  - rewrite lookup_app. apply lookup_None in Hkey. rewrite Hkey. simpl.
    now rewrite String.eqb_refl.
Qed.

Lemma lookup_setitem_other (k key : string) (v : Q) (df : DataFrame) :
  k <> key -> lookup k (setitem key v df) = lookup k df.
Proof.
  intros Hne. unfold setitem. destruct (has_column key df).
  - induction df as [| [c x] df IH]; simpl; [reflexivity |].
    destruct (String.eqb_spec c key) as [-> | Hc]; simpl.
    + apply String.eqb_neq in Hne. rewrite String.eqb_sym in Hne.
      now rewrite Hne.
    + now rewrite IH.
  - rewrite lookup_app. simpl.
    apply not_eq_sym in Hne. apply String.eqb_neq in Hne. rewrite Hne.
    now destruct (lookup k df).
Qed.

(** A positional write leaves the cell under [key] alone when it hits a
    column with another label. *)
Lemma lookup_iset (key : string) (i : nat) (v : Q) (df : DataFrame) :
  nth_error (columns df) i <> Some key ->
  lookup key (iset i v df) = lookup key df.
Proof.
  revert i. induction df as [| [c x] df IH]; intros [| i] Hi; simpl in *;
    try reflexivity.
  - destruct (String.eqb_spec c key) as [-> |]; [now destruct Hi |].
    reflexivity.
  - destruct (c =? key); [reflexivity |]. now apply IH.
Qed.

(** ** Positions *)

Lemma get_loc_from_label (n i : nat) (key : string) (cols : list string) :
  In i (get_loc_from n key cols) ->
  exists j, i = (n + j)%nat /\ nth_error cols j = Some key.
Proof.
  revert n. induction cols as [| c cols IH]; intros n Hin; simpl in Hin.
  - destruct Hin.
  - apply in_app_or in Hin. destruct Hin as [Hin | Hin].
    + destruct (String.eqb_spec c key) as [-> |]; simpl in Hin;
        [| destruct Hin].
      destruct Hin as [<- | []]. exists 0%nat. split; [lia | reflexivity].
    + destruct (IH _ Hin) as [j [-> Hj]]. exists (S j). split; [lia | exact Hj].
Qed.

(** Every selected position carries one of the selecting labels. *)
Lemma get_indexer_label (keys : list string) (df : DataFrame) (i : nat) :
  In i (get_indexer keys df) ->
  exists k, In k keys /\ nth_error (columns df) i = Some k.
Proof.
  unfold get_indexer. rewrite in_flat_map. intros [k [Hk Hin]].
  apply get_loc_from_label in Hin. destruct Hin as [j [-> Hj]].
  exists k. split; [exact Hk | exact Hj].
Qed.

Lemma lookup_iset_all (key : string) (writes : list (nat * Q))
    (df : DataFrame) :
  (forall i v, In (i, v) writes -> nth_error (columns df) i <> Some key) ->
  lookup key (iset_all writes df) = lookup key df.
Proof.
  unfold iset_all. revert df.
  induction writes as [| [i v] writes IH]; intros df Hw; simpl.
  - reflexivity.
  - rewrite IH.
    + apply lookup_iset. apply (Hw i v). now left.
    + intros j w Hin. rewrite columns_iset. apply (Hw j w). now right.
Qed.

(** Writing through the positions of some labels leaves every other label
    alone. *)
Lemma lookup_indexed_writes (key : string) (keys : list string)
    (arr : list Q) (df : DataFrame) :
  ~ In key keys ->
  lookup key (iset_all (combine (get_indexer keys df) arr) df)
  = lookup key df.
Proof.
  intros Hkey. apply lookup_iset_all. intros i v Hin Hi.
  apply in_combine_l in Hin. apply get_indexer_label in Hin.
  destruct Hin as [k [Hk Hik]]. congruence.
Qed.

(** ** Selecting and assigning a list of labels *)

Lemma getitem_list_present (keys : list string) (df : DataFrame) :
  forallb (fun k => has_column k df) keys = true ->
  getitem_list keys df
  = Ok (map (fun i => nth i (values df) 0%Q) (get_indexer keys df)).
Proof.
  intros H. unfold getitem_list. now rewrite H.
Qed.

Lemma setitem_list_present (keys : list string) (arr : list Q)
    (df : DataFrame) :
  forallb (fun k => has_column k df) keys = true ->
  List.length arr = List.length (get_indexer keys df) ->
  setitem_list keys arr df
  = Ok (iset_all (combine (get_indexer keys df) arr) df).
Proof.
  intros H Hlen. unfold setitem_list. rewrite H.
  apply Nat.eqb_eq in Hlen. now rewrite Hlen.
Qed.

(** ** The cells under a label *)

Lemma cells_positions_from (n : nat) (key : string) (pre df : DataFrame) :
  List.length pre = n ->
  map (fun i => nth i (values (pre ++ df)) 0%Q)
      (get_loc_from n key (columns df))
  = cells key df.
Proof.
  revert n pre. induction df as [| [c x] df IH]; intros n pre Hn; simpl.
  - reflexivity.
  - rewrite map_app.
    replace (pre ++ (c, x) :: df) with ((pre ++ [(c, x)]) ++ df)
      by now rewrite <- app_assoc.
    rewrite (IH (S n) (pre ++ [(c, x)]));
      [| rewrite length_app; simpl; lia].
    unfold cells. simpl. destruct (c =? key); simpl; [| reflexivity].
    f_equal. unfold values. rewrite <- app_assoc, map_app. simpl.
    rewrite app_nth2; rewrite length_map; [| lia].
    subst n. now rewrite Nat.sub_diag.
Qed.

(** The cells read through the positions of a label are the cells under
    that label. *)
Lemma cells_positions (key : string) (df : DataFrame) :
  map (fun i => nth i (values df) 0%Q) (get_loc_from 0 key (columns df))
  = cells key df.
Proof.
  exact (cells_positions_from 0 key [] df eq_refl).
Qed.

Lemma cells_absent (key : string) (df : DataFrame) :
  has_column key df = false -> cells key df = [].
Proof.
  unfold has_column, cells. induction df as [| [c x] df IH]; simpl;
    [reflexivity |].
  rewrite (String.eqb_sym key c). destruct (c =? key); simpl;
    [discriminate | exact IH].
Qed.

Lemma cells_setitem_other (k key : string) (v : Q) (df : DataFrame) :
  k <> key -> cells k (setitem key v df) = cells k df.
Proof.
  intros Hne. unfold setitem, cells. destruct (has_column key df).
  - induction df as [| [c x] df IH]; simpl; [reflexivity |].
    destruct (String.eqb_spec c key) as [-> | Hc]; simpl.
    + apply not_eq_sym in Hne. apply String.eqb_neq in Hne.
      now rewrite Hne.
    + destruct (c =? k); simpl; now rewrite IH.
  - rewrite filter_app, map_app. simpl.
    apply not_eq_sym in Hne. apply String.eqb_neq in Hne. rewrite Hne.
    simpl. apply app_nil_r.
Qed.

Lemma cells_setitem_same (key : string) (v : Q) (df : DataFrame) :
  cells key (setitem key v df) =
    if has_column key df then map (fun _ => v) (cells key df) else [v].
Proof.
  unfold setitem. destruct (has_column key df) eqn:Hkey.
  - unfold cells. clear Hkey.
    induction df as [| [c x] df IH]; simpl; [reflexivity |].
    destruct (c =? key) eqn:E; simpl; rewrite E; simpl; now rewrite IH.
  - unfold cells. rewrite filter_app, map_app. simpl.
    rewrite String.eqb_refl. simpl.
    apply cells_absent in Hkey. unfold cells in Hkey. now rewrite Hkey.
Qed.

Lemma cells_nil_iff (key : string) (df : DataFrame) :
  cells key df = [] <-> has_column key df = false.
Proof.
  split; [| apply cells_absent].
  unfold has_column, cells. induction df as [| [c x] df IH]; simpl;
    [reflexivity |].
  rewrite (String.eqb_sym key c). destruct (c =? key); simpl;
    [discriminate | exact IH].
Qed.

(** Assigning to a label that names at most one column leaves exactly one
    cell under it. *)
Lemma cells_setitem_single (key : string) (v : Q) (df : DataFrame) :
  (List.length (cells key df) <= 1)%nat ->
  cells key (setitem key v df) = [v].
Proof.
  intros Hlen. rewrite cells_setitem_same.
  destruct (has_column key df) eqn:Hkey; [| reflexivity].
  destruct (cells key df) as [| x [| y l]] eqn:E; simpl in *.
  - apply cells_nil_iff in E. congruence.
  - reflexivity.
  - lia.
Qed.

Lemma cells_zeros_NoDup (key : string) (cols : list string) :
  NoDup cols -> (List.length (cells key (zeros cols)) <= 1)%nat.
Proof.
  induction 1 as [| c cols Hc Hnd IH]; simpl; [lia |].
  unfold cells in *. simpl.
  destruct (String.eqb_spec c key) as [-> |]; simpl; [| exact IH].
  assert (E : cells key (zeros cols) = []).
  { apply cells_absent. apply not_true_is_false. intros Habs.
    apply has_column_In in Habs. now rewrite columns_zeros in Habs. }
  unfold cells in E. rewrite E. simpl. lia.
Qed.

(** The cell a guarded indicator assignment leaves under a label. *)
Lemma lookup_guarded (k label : string) (g : bool) (df : DataFrame) :
  lookup k (if g && has_column label df then setitem label 1%Q df else df)
  = if (k =? label) && g
    then match lookup k df with Some _ => Some 1%Q | None => None end
    else lookup k df.
Proof.
  destruct (String.eqb_spec k label) as [-> | Hne]; simpl.
  - destruct g; simpl; [| reflexivity].
    destruct (has_column label df) eqn:Hl.
    + rewrite lookup_setitem_same.
      destruct (lookup label df) eqn:E; [reflexivity |].
      apply lookup_None in E. congruence.
    + apply lookup_None in Hl. now rewrite Hl.
  - destruct (g && has_column label df); [| reflexivity].
    now apply lookup_setitem_other.
Qed.

Lemma columns_guarded (label : string) (g : bool) (df : DataFrame) :
  columns (if g && has_column label df then setitem label 1%Q df else df)
  = columns df.
Proof.
  destruct g; simpl; [| reflexivity].
  destruct (has_column label df) eqn:Hl; [| reflexivity].
  now rewrite columns_setitem, Hl.
Qed.

(** ** Every cell under a label *)

Lemma cells_zeros (key : string) (cols : list string) :
  cells key (zeros cols) = repeat 0%Q (count_occ string_dec cols key).
Proof.
  unfold cells. induction cols as [| c cols IH]; simpl; [reflexivity |].
  destruct (String.eqb_spec c key) as [-> | Hne].
  - destruct (string_dec key key) as [_ | Hk]; [| now destruct Hk].
    simpl. now rewrite IH.
  - destruct (string_dec c key) as [Hk | _]; [now destruct Hne |].
    exact IH.
Qed.

(** A positional write leaves the cells under [key] alone when it hits a
    column with another label. *)
Lemma cells_iset (key : string) (i : nat) (v : Q) (df : DataFrame) :
  nth_error (columns df) i <> Some key ->
  cells key (iset i v df) = cells key df.
Proof.
  unfold cells. revert i.
  induction df as [| [c x] df IH]; intros [| i] Hi; simpl in *;
    try reflexivity.
  - destruct (String.eqb_spec c key) as [-> |]; [now destruct Hi |].
    reflexivity.
  - destruct (c =? key); simpl; now rewrite IH.
Qed.

Lemma cells_iset_all (key : string) (writes : list (nat * Q))
    (df : DataFrame) :
  (forall i v, In (i, v) writes -> nth_error (columns df) i <> Some key) ->
  cells key (iset_all writes df) = cells key df.
Proof.
  unfold iset_all. revert df.
  induction writes as [| [i v] writes IH]; intros df Hw; simpl.
  - reflexivity.
  - rewrite IH.
    + apply cells_iset. apply (Hw i v). now left.
    + intros j w Hin. rewrite columns_iset. apply (Hw j w). now right.
Qed.

Lemma cells_indexed_writes (key : string) (keys : list string)
    (arr : list Q) (df : DataFrame) :
  ~ In key keys ->
  cells key (iset_all (combine (get_indexer keys df) arr) df)
  = cells key df.
Proof.
  intros Hkey. apply cells_iset_all. intros i v Hin Hi.
  apply in_combine_l in Hin. apply get_indexer_label in Hin.
  destruct Hin as [k [Hk Hik]]. congruence.
Qed.

(** The cells a guarded indicator assignment leaves under a label. *)
Lemma cells_guarded (k label : string) (g : bool) (df : DataFrame) :
  cells k (if g && has_column label df then setitem label 1%Q df else df)
  = if (k =? label) && g
    then map (fun _ => 1%Q) (cells k df)
    else cells k df.
Proof.
  destruct (String.eqb_spec k label) as [-> | Hne]; simpl.
  - destruct g; simpl; [| reflexivity].
    destruct (has_column label df) eqn:Hl.
    + now rewrite cells_setitem_same, Hl.
    + apply cells_absent in Hl. now rewrite Hl.
  - destruct (g && has_column label df); [| reflexivity].
    now apply cells_setitem_other.
Qed.

(** A cell found in the frame is one of the cells under its label. *)
Lemma In_cells (key : string) (x : Q) (df : DataFrame) :
  In (key, x) df <-> In x (cells key df).
Proof.
  unfold cells. rewrite in_map_iff. split.
  - intros Hin. exists (key, x). split; [reflexivity |].
    apply filter_In. split; [exact Hin | apply String.eqb_refl].
  - intros [[c y] [Hy Hin]]. simpl in Hy. subst y.
    apply filter_In in Hin. destruct Hin as [Hin Hc]. simpl in Hc.
    apply String.eqb_eq in Hc. now subst c.
Qed.

End FrameFacts.

(** * Properties of the feature encoder *)

Module EncoderFacts.

Import Frame Encoder Samples FrameFacts.

Lemma has_column_zeros (key : string) (cols : list string) :
  has_column key (zeros cols) = existsb (String.eqb key) cols.
Proof.
  unfold has_column. now rewrite columns_zeros.
Qed.

(** After lines 135 to 137 the three numeric labels name columns. *)
Lemma assign_numeric_has_numeric (fc : list string) (p : CustomerProfile) :
  forallb (fun k => has_column k (assign_numeric fc p)) numeric_columns
  = true.
Proof.
  unfold assign_numeric, numeric_columns. simpl.
  rewrite !has_column_setitem. simpl.
  now rewrite !orb_true_r.
Qed.

(** The columns after lines 133 to 137: the feature list, then the numeric
    labels it lacks. *)
Lemma columns_assign_numeric (fc : list string) (p : CustomerProfile) :
  columns (assign_numeric fc p) = fc ++ missing_numeric fc.
Proof.
  unfold assign_numeric, missing_numeric, numeric_columns.
  rewrite !columns_setitem, !has_column_setitem, !has_column_zeros,
    columns_zeros.
  cbn [filter].
  remember (existsb (String.eqb "tenure") fc) as has_tenure.
  remember (existsb (String.eqb "MonthlyCharges") fc) as has_monthly.
  remember (existsb (String.eqb "TotalCharges") fc) as has_total.
  destruct has_tenure, has_monthly, has_total; simpl;
    rewrite <- ?app_assoc, ?app_nil_r; reflexivity.
Qed.

Lemma getitem_assign_numeric (fc : list string) (p : CustomerProfile) :
  getitem_list numeric_columns (assign_numeric fc p)
  = Ok (scaler_batch fc p).
Proof.
  now rewrite getitem_list_present by apply assign_numeric_has_numeric.
Qed.

Lemma scaler_batch_length (fc : list string) (p : CustomerProfile) :
  List.length (scaler_batch fc p)
  = List.length (get_indexer numeric_columns (assign_numeric fc p)).
Proof.
  unfold scaler_batch. apply length_map.
Qed.

(** The whole script in terms of what the scaler answers. *)
Lemma input_data_unfold (fc : list string) (scaler : Scaler)
    (p : CustomerProfile) :
  input_data fc scaler p =
    match scaler (scaler_batch fc p) with
    | Raise e => Raise e
    | Ok scaled =>
        if (List.length scaled =? List.length (scaler_batch fc p))%nat
        then Ok (encode_categoricals p (scaled_frame fc p scaled))
        else Raise ValueError
    end.
Proof.
  unfold input_data, apply_scaling.
  rewrite getitem_assign_numeric. simpl.
  destruct (scaler (scaler_batch fc p)) as [scaled | e]; simpl;
    [| reflexivity].
  unfold setitem_list. rewrite assign_numeric_has_numeric.
  rewrite scaler_batch_length.
  destruct (List.length scaled =? _)%nat; reflexivity.
Qed.

Lemma columns_scaled_frame (fc : list string) (p : CustomerProfile)
    (scaled : list Q) :
  columns (scaled_frame fc p scaled) = fc ++ missing_numeric fc.
Proof.
  unfold scaled_frame. now rewrite columns_iset_all, columns_assign_numeric.
Qed.

Lemma columns_encode_categoricals (p : CustomerProfile) (df : DataFrame) :
  columns (encode_categoricals p df) = columns df.
Proof.
  unfold encode_categoricals. now rewrite !columns_guarded.
Qed.

(** A label outside the numeric ones is still at zero after the scaling,
    when the feature list has it, and names no column otherwise. *)
Lemma lookup_scaled_frame (k : string) (fc : list string)
    (p : CustomerProfile) (scaled : list Q) :
  ~ In k numeric_columns ->
  lookup k (scaled_frame fc p scaled)
  = if existsb (String.eqb k) fc then Some 0%Q else None.
Proof.
  intros Hk. unfold scaled_frame.
  rewrite lookup_indexed_writes by exact Hk.
  unfold assign_numeric.
  rewrite !lookup_setitem_other;
    [apply lookup_zeros | | |];
    intros ->; apply Hk; simpl; auto.
Qed.

Lemma contract_label_not_numeric (c : string) :
  ~ In ("Contract_" ++ c)%string numeric_columns.
Proof. simpl. intuition discriminate. Qed.

Lemma internet_label_not_numeric (i : string) :
  ~ In ("InternetService_" ++ i)%string numeric_columns.
Proof. simpl. intuition discriminate. Qed.

Lemma paperless_label_not_numeric :
  ~ In "PaperlessBilling" numeric_columns.
Proof. simpl. intuition discriminate. Qed.

(** The three indicator cells after lines 145 to 152, over any frame. *)
Lemma lookup_contract_indicator (p : CustomerProfile) (df : DataFrame) :
  lookup ("Contract_" ++ contract p)%string (encode_categoricals p df)
  = if negb (contract p =? "Month-to-month")
    then match lookup ("Contract_" ++ contract p)%string df with
         | Some _ => Some 1%Q
         | None => None
         end
    else lookup ("Contract_" ++ contract p)%string df.
Proof.
  unfold encode_categoricals. cbv zeta.
  rewrite lookup_guarded.
  change (("Contract_" ++ contract p)%string =? "PaperlessBilling")
    with false.
  cbn [andb]. rewrite lookup_guarded.
  change (("Contract_" ++ contract p)%string
          =? ("InternetService_" ++ internet_service p)%string) with false.
  cbn [andb]. rewrite lookup_guarded, String.eqb_refl. reflexivity.
Qed.

Lemma lookup_internet_indicator (p : CustomerProfile) (df : DataFrame) :
  lookup ("InternetService_" ++ internet_service p)%string
         (encode_categoricals p df)
  = if negb (internet_service p =? "DSL")
    then match lookup ("InternetService_" ++ internet_service p)%string df
         with
         | Some _ => Some 1%Q
         | None => None
         end
    else lookup ("InternetService_" ++ internet_service p)%string df.
Proof.
  unfold encode_categoricals. cbv zeta.
  rewrite lookup_guarded.
  change (("InternetService_" ++ internet_service p)%string
          =? "PaperlessBilling") with false.
  cbn [andb]. rewrite lookup_guarded, String.eqb_refl. cbn [andb].
  rewrite lookup_guarded.
  change (("InternetService_" ++ internet_service p)%string
          =? ("Contract_" ++ contract p)%string) with false.
  reflexivity.
Qed.

Lemma lookup_paperless_indicator (p : CustomerProfile) (df : DataFrame) :
  lookup "PaperlessBilling" (encode_categoricals p df)
  = if paperless_billing p =? "Yes"
    then match lookup "PaperlessBilling" df with
         | Some _ => Some 1%Q
         | None => None
         end
    else lookup "PaperlessBilling" df.
Proof.
  unfold encode_categoricals. cbv zeta.
  rewrite lookup_guarded, String.eqb_refl. cbn [andb].
  rewrite lookup_guarded.
  change ("PaperlessBilling"
          =? ("InternetService_" ++ internet_service p)%string) with false.
  cbn [andb]. rewrite lookup_guarded.
  change ("PaperlessBilling" =? ("Contract_" ++ contract p)%string)
    with false.
  reflexivity.
Qed.

(** With no repeated feature name the scaler receives exactly the three raw
    numbers. *)
Lemma scaler_batch_NoDup (fc : list string) (p : CustomerProfile) :
  NoDup fc ->
  scaler_batch fc p
  = [inject_Z (tenure p); monthly_charges p; total_charges p].
Proof.
  intros Hnd. unfold scaler_batch, get_indexer, numeric_columns.
  cbn [flat_map]. rewrite !map_app, !cells_positions. cbn [map].
  unfold assign_numeric.
  rewrite (cells_setitem_other "tenure" "TotalCharges") by discriminate.
  rewrite (cells_setitem_other "tenure" "MonthlyCharges") by discriminate.
  rewrite (cells_setitem_other "MonthlyCharges" "TotalCharges")
    by discriminate.
  rewrite !cells_setitem_single; [reflexivity | | |].
  - rewrite (cells_setitem_other "TotalCharges" "MonthlyCharges")
      by discriminate.
    rewrite (cells_setitem_other "TotalCharges" "tenure") by discriminate.
    now apply cells_zeros_NoDup.
  - rewrite (cells_setitem_other "MonthlyCharges" "tenure") by discriminate.
    now apply cells_zeros_NoDup.
  - now apply cells_zeros_NoDup.
Qed.

(** The frame is built whenever the scaler returns a row as wide as the
    batch it is given. *)
Lemma input_data_built (fc : list string) (scaler : Scaler)
    (p : CustomerProfile) (scaled : list Q) :
  scaler (scaler_batch fc p) = Ok scaled ->
  List.length scaled = List.length (scaler_batch fc p) ->
  input_data fc scaler p
  = Ok (encode_categoricals p (scaled_frame fc p scaled)).
Proof.
  intros Hs Hlen. rewrite input_data_unfold, Hs.
  apply Nat.eqb_eq in Hlen. now rewrite Hlen.
Qed.

(** C2 (as stated, refuted): with a feature list that lacks the total
    charges the frame is built without error and has a third column,
    [TotalCharges], that the feature list does not have. *)
Lemma absent_numeric_label_adds_column :
  exists df,
    input_data columns_without_total telco_scaler profile_one_year = Ok df /\
    columns df = ["tenure"; "MonthlyCharges"; "TotalCharges"] /\
    columns df <> columns_without_total /\
    List.length df <> List.length columns_without_total.
Proof.
  eexists. split; [vm_compute; reflexivity |].
  repeat split; simpl; discriminate.
Qed.

(** C2 (amended): whenever the frame is built, its columns are the feature
    list followed by those of [tenure], [MonthlyCharges], [TotalCharges]
    that the list lacks; so when the list has the three numeric labels the
    frame has exactly the columns of the list, in number and in name.  An
    absent indicator label never adds a column.  The frame is built
    whenever the scaler returns a row as wide as the batch it is given. *)
Theorem input_data_columns (fc : list string) (scaler : Scaler)
    (p : CustomerProfile) :
  (forall df, input_data fc scaler p = Ok df ->
     columns df = fc ++ missing_numeric fc /\
     (missing_numeric fc = [] ->
        columns df = fc /\ List.length df = List.length fc)) /\
  (forall scaled,
     scaler (scaler_batch fc p) = Ok scaled ->
     List.length scaled = List.length (scaler_batch fc p) ->
     exists df, input_data fc scaler p = Ok df).
Proof.
  rewrite input_data_unfold. split.
  - intros df Hdf.
    destruct (scaler (scaler_batch fc p)) as [scaled | e]; [| discriminate].
    destruct (List.length scaled =? _)%nat; [| discriminate].
    injection Hdf as <-.
    rewrite columns_encode_categoricals, columns_scaled_frame.
    split; [reflexivity |].
    intros Hnone.
    assert (Hcols : columns (encode_categoricals p (scaled_frame fc p scaled))
                    = fc).
    { rewrite columns_encode_categoricals, columns_scaled_frame, Hnone.
      apply app_nil_r. }
    split; [now rewrite Hnone, app_nil_r |].
    rewrite <- Hcols at 2. unfold columns. now rewrite length_map.
  - intros scaled Hs Hlen. rewrite <- input_data_unfold.
    rewrite (input_data_built fc scaler p scaled Hs Hlen). eauto.
Qed.

(** On the sample feature list the frame has the eight columns of the
    list. *)
Lemma input_data_columns_witness :
  exists df,
    input_data telco_columns telco_scaler profile_one_year = Ok df /\
    columns df = telco_columns /\ List.length df = 8%nat.
Proof.
  destruct (input_data_columns telco_columns telco_scaler profile_one_year)
    as [Hcols Hok].
  destruct (Hok _ eq_refl eq_refl) as [df Hdf].
  exists df. split; [exact Hdf |].
  destruct (Hcols df Hdf) as [_ Hsame]. exact (Hsame eq_refl).
Defined.

(** C3 (as stated, refuted): an empty feature list is no error.  The frame
    is built with the three numeric columns, so the equivalence between
    raising and "the list is empty or the scaler rejects" fails. *)
Lemma empty_feature_list_does_not_raise :
  (exists df, input_data [] telco_scaler profile_one_year = Ok df) /\
  ~ ((exists e, input_data [] telco_scaler profile_one_year = Raise e) <->
     (@nil string = [] \/
      exists e,
        telco_scaler (scaler_batch [] profile_one_year) = Raise e)).
Proof.
  split.
  - eexists. vm_compute. reflexivity.
  - intros [_ H]. destruct (H (or_introl eq_refl)) as [e He].
    vm_compute in He. discriminate.
Qed.

(** C3 (amended): the script raises exactly when the scaler does not accept
    the batch of the numeric columns, that is when [transform] raises on it
    (and then its exception is the one that propagates) or returns a row of
    another width.  Nothing else raises: neither an empty feature list nor
    an absent indicator column.  A raise yields no frame at all.  When no
    feature name is repeated the batch is the triple of the raw tenure,
    monthly charges and total charges. *)
Theorem input_data_raises_iff (fc : list string) (scaler : Scaler)
    (p : CustomerProfile) :
  ((exists e, input_data fc scaler p = Raise e) <->
     (exists e, scaler (scaler_batch fc p) = Raise e) \/
     (exists scaled,
        scaler (scaler_batch fc p) = Ok scaled /\
        List.length scaled <> List.length (scaler_batch fc p))) /\
  (forall e, scaler (scaler_batch fc p) = Raise e ->
     input_data fc scaler p = Raise e) /\
  (NoDup fc ->
     scaler_batch fc p
     = [inject_Z (tenure p); monthly_charges p; total_charges p]).
Proof.
  rewrite input_data_unfold. split; [| split].
  - destruct (scaler (scaler_batch fc p)) as [scaled | e].
    + destruct (Nat.eqb_spec (List.length scaled)
                  (List.length (scaler_batch fc p))) as [Hlen | Hlen].
      * split.
        -- intros [e He]. discriminate.
        -- intros [[e He] | [s [Hs Hne]]]; [discriminate |].
           injection Hs as <-. contradiction.
      * split; [| eauto]. intros _. right. eauto.
    + split; eauto.
  - intros e He. now rewrite He.
  - apply scaler_batch_NoDup.
Qed.

(** A scaler fitted on two features rejects the batch of three, and its
    exception is what the script raises. *)
Lemma input_data_raises_iff_witness :
  input_data telco_columns two_feature_scaler profile_one_year
  = Raise ValueError.
Proof.
  destruct (input_data_raises_iff telco_columns two_feature_scaler
              profile_one_year) as [_ [Hraise _]].
  apply Hraise. reflexivity.
Defined.

(** Every cell under a label outside the numeric ones is still at zero
    after the scaling. *)
Lemma cells_scaled_frame (k : string) (fc : list string)
    (p : CustomerProfile) (scaled : list Q) :
  ~ In k numeric_columns ->
  cells k (scaled_frame fc p scaled)
  = repeat 0%Q (count_occ string_dec fc k).
Proof.
  intros Hk. unfold scaled_frame.
  rewrite cells_indexed_writes by exact Hk.
  unfold assign_numeric.
  rewrite !cells_setitem_other;
    [apply cells_zeros | | |];
    intros ->; apply Hk; simpl; auto.
Qed.

(** The cells of the contract family, of the internet family and of the
    paperless column after lines 145 to 152, over any frame. *)
Lemma cells_contract_family (p : CustomerProfile) (df : DataFrame)
    (c : string) :
  cells ("Contract_" ++ c)%string (encode_categoricals p df)
  = if (c =? contract p) && negb (contract p =? "Month-to-month")
    then map (fun _ => 1%Q) (cells ("Contract_" ++ c)%string df)
    else cells ("Contract_" ++ c)%string df.
Proof.
  unfold encode_categoricals. cbv zeta.
  rewrite cells_guarded.
  change (("Contract_" ++ c)%string =? "PaperlessBilling") with false.
  cbn [andb]. rewrite cells_guarded.
  change (("Contract_" ++ c)%string
          =? ("InternetService_" ++ internet_service p)%string) with false.
  cbn [andb]. rewrite cells_guarded.
  change (("Contract_" ++ c)%string =? ("Contract_" ++ contract p)%string)
    with (c =? contract p).
  reflexivity.
Qed.

Lemma cells_internet_family (p : CustomerProfile) (df : DataFrame)
    (i : string) :
  cells ("InternetService_" ++ i)%string (encode_categoricals p df)
  = if (i =? internet_service p) && negb (internet_service p =? "DSL")
    then map (fun _ => 1%Q) (cells ("InternetService_" ++ i)%string df)
    else cells ("InternetService_" ++ i)%string df.
Proof.
  unfold encode_categoricals. cbv zeta.
  rewrite cells_guarded.
  change (("InternetService_" ++ i)%string =? "PaperlessBilling") with false.
  cbn [andb]. rewrite cells_guarded.
  change (("InternetService_" ++ i)%string
          =? ("InternetService_" ++ internet_service p)%string)
    with (i =? internet_service p).
  destruct ((i =? internet_service p)
            && negb (internet_service p =? "DSL")).
  - rewrite cells_guarded.
    change (("InternetService_" ++ i)%string
            =? ("Contract_" ++ contract p)%string) with false.
    reflexivity.
  - rewrite cells_guarded.
    change (("InternetService_" ++ i)%string
            =? ("Contract_" ++ contract p)%string) with false.
    reflexivity.
Qed.

Lemma cells_paperless (p : CustomerProfile) (df : DataFrame) :
  cells "PaperlessBilling" (encode_categoricals p df)
  = if paperless_billing p =? "Yes"
    then map (fun _ => 1%Q) (cells "PaperlessBilling" df)
    else cells "PaperlessBilling" df.
Proof.
  unfold encode_categoricals. cbv zeta.
  rewrite cells_guarded, String.eqb_refl. cbn [andb].
  assert (E : forall d, cells "PaperlessBilling"
            (if negb (internet_service p =? "DSL")
                && has_column ("InternetService_" ++ internet_service p)%string
                     d
             then setitem ("InternetService_" ++ internet_service p)%string
                    1%Q d
             else d) = cells "PaperlessBilling" d).
  { intros d. rewrite cells_guarded.
    change ("PaperlessBilling"
            =? ("InternetService_" ++ internet_service p)%string) with false.
    reflexivity. }
  rewrite E. rewrite cells_guarded.
  change ("PaperlessBilling" =? ("Contract_" ++ contract p)%string)
    with false.
  reflexivity.
Qed.

Lemma indicator_cells_on (fc : list string) (label : string) (on : bool) :
  (if on
   then map (fun _ => 1%Q) (repeat 0%Q (count_occ string_dec fc label))
   else repeat 0%Q (count_occ string_dec fc label))
  = indicator_cells fc label on.
Proof.
  unfold indicator_cells. destruct on; [apply map_repeat | reflexivity].
Qed.

(** C6: the indicator columns.  In a frame that was built, the column
    [Contract_<contract>] holds 1 exactly when the contract is not
    month-to-month and the feature list has that label, the column
    [InternetService_<service>] holds 1 exactly when the service is not DSL
    and the feature list has that label, and [PaperlessBilling] holds 1
    exactly when paperless billing is "Yes" and the feature list has the
    label.  When the feature list has the label and the condition fails the
    cell stays at 0; when the feature list lacks the label nothing is
    raised and the frame has no such column.  This is all the encoding
    does to the two families: for every category [c], every column
    labelled [Contract_<c>] holds 1 when [c] is the contract of the profile
    and that contract is not month-to-month, and 0 otherwise, so a
    month-to-month customer has all contract columns at 0; likewise for
    every [InternetService_<i>] with DSL as the all-zeros baseline, and for
    every column labelled [PaperlessBilling].  The frame is built whenever
    the scaler returns a row as wide as its batch, whatever indicator
    labels are present. *)
Theorem categorical_indicators (fc : list string) (scaler : Scaler)
    (p : CustomerProfile) :
  (forall df, input_data fc scaler p = Ok df ->
     lookup ("Contract_" ++ contract p)%string df
     = indicator fc ("Contract_" ++ contract p)%string
         (negb (contract p =? "Month-to-month")) /\
     lookup ("InternetService_" ++ internet_service p)%string df
     = indicator fc ("InternetService_" ++ internet_service p)%string
         (negb (internet_service p =? "DSL")) /\
     lookup "PaperlessBilling" df
     = indicator fc "PaperlessBilling" (paperless_billing p =? "Yes") /\
     (forall c,
        cells ("Contract_" ++ c)%string df
        = indicator_cells fc ("Contract_" ++ c)%string
            ((c =? contract p) && negb (contract p =? "Month-to-month"))) /\
     (forall i,
        cells ("InternetService_" ++ i)%string df
        = indicator_cells fc ("InternetService_" ++ i)%string
            ((i =? internet_service p)
             && negb (internet_service p =? "DSL"))) /\
     cells "PaperlessBilling" df
     = indicator_cells fc "PaperlessBilling" (paperless_billing p =? "Yes"))
  /\
  (forall scaled,
     scaler (scaler_batch fc p) = Ok scaled ->
     List.length scaled = List.length (scaler_batch fc p) ->
     exists df, input_data fc scaler p = Ok df).
Proof.
  split;
    [| intros scaled Hs Hlen;
       rewrite (input_data_built fc scaler p scaled Hs Hlen); eauto].
  rewrite input_data_unfold. intros df Hdf.
  destruct (scaler (scaler_batch fc p)) as [scaled | e]; [| discriminate].
  destruct (List.length scaled =? _)%nat; [| discriminate].
  injection Hdf as <-. unfold indicator.
  rewrite lookup_contract_indicator, lookup_internet_indicator,
    lookup_paperless_indicator.
  rewrite !lookup_scaled_frame
    by first [ apply contract_label_not_numeric
             | apply internet_label_not_numeric
             | apply paperless_label_not_numeric ].
  split; [| split; [| split; [| split; [| split]]]].
  - destruct (negb (contract p =? "Month-to-month")),
      (existsb (String.eqb ("Contract_" ++ contract p)%string) fc);
      reflexivity.
  - destruct (negb (internet_service p =? "DSL")),
      (existsb (String.eqb ("InternetService_" ++ internet_service p)%string)
         fc); reflexivity.
  - destruct (paperless_billing p =? "Yes"),
      (existsb (String.eqb "PaperlessBilling") fc); reflexivity.
  - intros c. rewrite cells_contract_family, cells_scaled_frame
      by apply contract_label_not_numeric.
    apply indicator_cells_on.
  - intros i. rewrite cells_internet_family, cells_scaled_frame
      by apply internet_label_not_numeric.
    apply indicator_cells_on.
  - rewrite cells_paperless, cells_scaled_frame
      by apply paperless_label_not_numeric.
    apply indicator_cells_on.
Qed.

(** A one-year contract against a feature list without [Contract_One year]:
    the frame is built and has no such column, the two-year column stays at
    0, and the internet and paperless indicators are set. *)
Lemma categorical_indicators_witness :
  exists df,
    input_data columns_without_one_year telco_scaler profile_one_year
      = Ok df /\
    lookup "Contract_One year" df = None /\
    lookup "InternetService_No" df = Some 1%Q /\
    lookup "PaperlessBilling" df = Some 1%Q /\
    cells "Contract_Two year" df = [0%Q] /\
    cells "InternetService_Fiber optic" df = [0%Q].
Proof.
  destruct (categorical_indicators columns_without_one_year telco_scaler
              profile_one_year) as [Hcells Hok].
  destruct (Hok _ eq_refl eq_refl) as [df Hdf].
  exists df. split; [exact Hdf |].
  destruct (Hcells df Hdf) as [Hc [Hi [Hp [Hcs [His _]]]]].
  split; [exact Hc | split; [exact Hi | split; [exact Hp |]]].
  split; [exact (Hcs "Two year") | exact (His "Fiber optic")].
Defined.

End EncoderFacts.

(** * Further properties of the reason generator *)

Module ReasonerMore.

Import Reasoner RuleTable Samples ReasonerFacts.

(** Replace every rule of a profile by the entries it emits: one goal per
    combination of outcomes, each with the facts about the inputs. *)
Ltac all_rules p :=
  rewrite ?(explain_rules p);
  destruct (tenure_reasons_cases (tenure p)) as [[? ->] | [[? ->] | [? ->]]];
  destruct (contract_entry_cases p) as [[? ->] | [? ->]];
  destruct (monthly_reasons_cases (monthly_charges p))
    as [[? ->] | [[[? ?] ->] | [? ->]]];
  destruct (internet_reasons_cases (internet_service p)) as [[? ->] | [? ->]];
  destruct (paperless_reasons_cases (paperless_billing p))
    as [[? ->] | [? ->]];
  cbn [app].

(** Evaluate the banner of a list of known entries. *)
Ltac eval_banner :=
  repeat match goal with
         | |- context [banner ?l] =>
             let v := eval vm_compute in (banner l) in
             change (banner l) with v
         end.

Lemma entry_eqb_eq (r1 r2 : ReasonEntry) :
  entry_eqb r1 r2 = true <-> r1 = r2.
Proof.
  destruct r1 as [[t1 s1] e1], r2 as [[t2 s2] e2].
  unfold entry_eqb, title, severity, explanation. simpl.
  rewrite !andb_true_iff, !String.eqb_eq. split.
  - intros [[-> ->] ->]. reflexivity.
  - intros H. injection H as -> -> ->. auto.
Qed.

(** A list without repeated images has no two entries with the same
    image. *)
Lemma NoDup_map_injective {A B : Type} (f : A -> B) (l : list A) :
  NoDup (map f l) ->
  forall a b, In a l -> In b l -> f a = f b -> a = b.
Proof.
  induction l as [| x l IH]; simpl; intros Hnd a b Ha Hb Hf; [destruct Ha |].
  inversion Hnd as [| ? ? Hx Hl]; subst.
  destruct Ha as [<- | Ha], Hb as [<- | Hb]; try reflexivity.
  - destruct Hx. rewrite Hf. now apply in_map.
  - destruct Hx. rewrite <- Hf. now apply in_map.
  - now apply IH.
Qed.

(** The internet rule (lines 49 and 50): the fiber-optic entry is emitted
    exactly when the service is "Fiber optic"; "DSL", "No" and any other
    value give no entry with that title. *)
Theorem internet_rule (p : CustomerProfile) :
  (In fiber_optic_service (explain p) <->
     internet_service p = "Fiber optic") /\
  (In "Fiber optic service" (titles (explain p)) <->
     internet_service p = "Fiber optic").
Proof.
  unfold titles. rewrite in_explain, in_map_explain. split; split.
  - intros [H | [H | [H | [H | H]]]]; wrong_rule H.
  - intros H. right; right; right; left.
    unfold internet_reasons. rewrite H. simpl. auto.
  - intros [H | [H | [H | [H | H]]]]; wrong_rule H.
  - intros H. right; right; right; left.
    unfold internet_reasons. rewrite H. simpl. auto.
Qed.

(** The paperless rule (lines 52 and 53): the paperless entry is emitted
    exactly when the billing choice is "Yes", and it then closes the list. *)
Theorem paperless_rule (p : CustomerProfile) :
  (In paperless (explain p) <-> paperless_billing p = "Yes") /\
  (In "Paperless billing" (titles (explain p)) <->
     paperless_billing p = "Yes") /\
  (paperless_billing p = "Yes" -> last (explain p) low_tenure = paperless).
Proof.
  unfold titles. rewrite in_explain, in_map_explain. split; [| split].
  - split.
    + intros [H | [H | [H | [H | H]]]]; wrong_rule H.
    + intros H. do 4 right.
      unfold paperless_reasons. rewrite H. simpl. auto.
  - split.
    + intros [H | [H | [H | [H | H]]]]; wrong_rule H.
    + intros H. do 4 right.
      unfold paperless_reasons. rewrite H. simpl. auto.
  - intros H. rewrite explain_rules.
    replace (paperless_reasons (paperless_billing p)) with [paperless]
      by (unfold paperless_reasons; now rewrite H).
    rewrite !app_assoc. apply last_last.
Qed.

(** With paperless billing the list ends with the paperless entry. *)
Lemma paperless_rule_witness :
  last (explain profile_five_reasons) low_tenure = paperless.
Proof.
  apply (proj2 (proj2 (paperless_rule profile_five_reasons))).
  reflexivity.
Defined.

(** Membership of the two tenure entries (lines 34 to 37): the low-tenure
    entry is in the list exactly below twelve months, the moderate-tenure
    entry exactly from twelve up to, not including, twenty-four months; the
    two are never emitted together. *)
Theorem tenure_entries (p : CustomerProfile) :
  (In low_tenure (explain p) <-> (tenure p < 12)%Z) /\
  (In moderate_tenure (explain p) <-> (12 <= tenure p < 24)%Z) /\
  ~ (In low_tenure (explain p) /\ In moderate_tenure (explain p)).
Proof.
  assert (Hlow : In low_tenure (explain p) <-> (tenure p < 12)%Z).
  { rewrite in_explain. split.
    - intros [H | [H | [H | [H | H]]]]; wrong_rule H.
    - intros H. left. expose_goal; solve [auto | lia]. }
  assert (Hmod : In moderate_tenure (explain p) <-> (12 <= tenure p < 24)%Z).
  { rewrite in_explain. split.
    - intros [H | [H | [H | [H | H]]]]; wrong_rule H.
    - intros H. left. expose_goal; solve [auto | lia]. }
  split; [exact Hlow | split; [exact Hmod |]].
  rewrite Hlow, Hmod. lia.
Qed.


(** The order of the entries is the order of the rules: whatever the
    profile, the list is a subsequence of the rule table, so the tenure
    entry (if any) precedes the contract entry, which precedes the
    monthly-charges entry, the fiber entry and the paperless entry. *)
Theorem explain_follows_rule_table (p : CustomerProfile) :
  subsequence (explain p) rule_table = true.
Proof.
  all_rules p; reflexivity.
Qed.

(** No reason is given twice: the titles of the list are pairwise distinct,
    and two entries of the list with the same title are the same entry. *)
Theorem explain_titles_distinct (p : CustomerProfile) :
  NoDup (titles (explain p)) /\
  (forall r1 r2, In r1 (explain p) -> In r2 (explain p) ->
     title r1 = title r2 -> r1 = r2).
Proof.
  assert (Hnd : NoDup (titles (explain p))).
  { unfold titles. all_rules p; cbn [map title fst];
      repeat (constructor; [simpl; intuition discriminate |]);
      constructor. }
  split; [exact Hnd |]. apply NoDup_map_injective. exact Hnd.
Qed.

(** Every entry carries one of the three severities the banner knows, and
    each title comes with one fixed severity. *)
Theorem explain_severities (p : CustomerProfile) (r : ReasonEntry) :
  In r (explain p) ->
  In r rule_table /\
  (severity r = "High" \/ severity r = "Medium" \/ severity r = "Low").
Proof.
  rewrite in_explain.
  intros [H | [H | [H | [H | H]]]]; expose H;
    repeat match goal with
           | H : _ \/ _ |- _ => destruct H
           | H : False |- _ => destruct H
           end;
    subst r; simpl; auto 12.
Qed.

(** The long-term entry of a two-year customer has severity Low. *)
Lemma explain_severities_witness :
  In long_term_contract rule_table /\
  (severity long_term_contract = "High" \/
   severity long_term_contract = "Medium" \/
   severity long_term_contract = "Low").
Proof.
  apply (explain_severities profile_one_reason). simpl. auto.
Defined.

(** The number of entries is one (the contract rule) plus the number of
    conditional rules that fire; the bounds one and five are both reached,
    and exactly in the extreme cases. *)
Theorem explain_length_exact (p : CustomerProfile) :
  List.length (explain p) = S (conditional_rules_fired p) /\
  (List.length (explain p) = 1%nat <->
     (24 <= tenure p)%Z /\ (monthly_charges p <= 50)%Q /\
     internet_service p <> "Fiber optic" /\ paperless_billing p <> "Yes") /\
  (List.length (explain p) = 5%nat <->
     (tenure p < 24)%Z /\ (50 < monthly_charges p)%Q /\
     internet_service p = "Fiber optic" /\ paperless_billing p = "Yes").
Proof.
  assert (Hlen : List.length (explain p) = S (conditional_rules_fired p)).
  { rewrite explain_rules, !length_app. unfold conditional_rules_fired,
      tenure_reasons, monthly_reasons, internet_reasons, paperless_reasons.
    destruct (Z.ltb_spec (tenure p) 12) as [H12 | H12].
    - assert (E : (tenure p <? 24)%Z = true) by (apply Z.ltb_lt; lia).
      rewrite E.
      destruct (Qgtb (monthly_charges p) 70) eqn:E70.
      + assert (E50 : Qgtb (monthly_charges p) 50 = true).
        { apply Qgtb_true_iff. apply Qgtb_true_iff in E70. lra. }
        rewrite E50.
        destruct (internet_service p =? "Fiber optic"),
          (paperless_billing p =? "Yes"); reflexivity.
      + destruct (Qgtb (monthly_charges p) 50),
          (internet_service p =? "Fiber optic"),
          (paperless_billing p =? "Yes"); reflexivity.
    - destruct (tenure p <? 24)%Z;
        destruct (Qgtb (monthly_charges p) 70) eqn:E70.
      + assert (E50 : Qgtb (monthly_charges p) 50 = true).
        { apply Qgtb_true_iff. apply Qgtb_true_iff in E70. lra. }
        rewrite E50.
        destruct (internet_service p =? "Fiber optic"),
          (paperless_billing p =? "Yes"); reflexivity.
      + destruct (Qgtb (monthly_charges p) 50),
          (internet_service p =? "Fiber optic"),
          (paperless_billing p =? "Yes"); reflexivity.
      + assert (E50 : Qgtb (monthly_charges p) 50 = true).
        { apply Qgtb_true_iff. apply Qgtb_true_iff in E70. lra. }
        rewrite E50.
        destruct (internet_service p =? "Fiber optic"),
          (paperless_billing p =? "Yes"); reflexivity.
      + destruct (Qgtb (monthly_charges p) 50),
          (internet_service p =? "Fiber optic"),
          (paperless_billing p =? "Yes"); reflexivity. }
  split; [exact Hlen |]. rewrite Hlen. unfold conditional_rules_fired.
  destruct (Z.ltb_spec (tenure p) 24);
    destruct (Qgtb (monthly_charges p) 50) eqn:E50;
    [apply Qgtb_true_iff in E50 | apply Qgtb_false_iff in E50
    | apply Qgtb_true_iff in E50 | apply Qgtb_false_iff in E50];
    destruct (String.eqb_spec (internet_service p) "Fiber optic");
    destruct (String.eqb_spec (paperless_billing p) "Yes");
    simpl; split; split; intros;
    repeat match goal with H : _ /\ _ |- _ => destruct H end;
    repeat split;
    try discriminate; try lia; try lra; try assumption; try contradiction.
Qed.


(** The banner read off the inputs (lines 206 to 214 after lines 34 to 53):
    it is the error banner exactly when the tenure is below twelve months,
    the contract is month-to-month or the monthly charges exceed 70; the
    success banner exactly when the tenure is at least twenty-four months,
    the contract is not month-to-month, the charges do not exceed 50 and
    the service is not fiber optic; the warning banner otherwise.  The
    billing choice never changes the banner. *)
Theorem banner_from_inputs (p : CustomerProfile) :
  (banner (explain p) = st_error <->
     (tenure p < 12)%Z \/ contract p = "Month-to-month" \/
     (70 < monthly_charges p)%Q) /\
  (banner (explain p) = st_success <->
     (24 <= tenure p)%Z /\ contract p <> "Month-to-month" /\
     (monthly_charges p <= 50)%Q /\ internet_service p <> "Fiber optic") /\
  (banner (explain p) = st_warning <->
     ~ ((tenure p < 12)%Z \/ contract p = "Month-to-month" \/
        (70 < monthly_charges p)%Q) /\
     ((tenure p < 24)%Z \/ (50 < monthly_charges p)%Q \/
      internet_service p = "Fiber optic")).
Proof.
  all_rules p; eval_banner;
    (split; [| split]); split; intros;
    repeat match goal with
           | H : _ /\ _ |- _ => destruct H
           end;
    try discriminate; try reflexivity;
    try solve [ intuition (try lia; try lra; try congruence) ].
Qed.

(** The top drivers (line 182) are the first entries of the list, at least
    one and at most three of them, so [st.columns] is asked for one to
    three columns; the contract entry is always one of them, and a tenure
    entry, when there is one, is the first. *)
Theorem top_drivers_of_explain (p : CustomerProfile) :
  (1 <= List.length (top_drivers (explain p)) <= 3)%nat /\
  List.length (top_drivers (explain p))
    = Nat.min 3 (List.length (explain p)) /\
  (exists rest, explain p = top_drivers (explain p) ++ rest) /\
  In (contract_entry p) (top_drivers (explain p)) /\
  hd_error (top_drivers (explain p)) = hd_error (explain p).
Proof.
  unfold top_drivers. split; [| split; [| split; [| split]]].
  - rewrite length_firstn. all_rules p; simpl; lia.
  - apply length_firstn.
  - exists (skipn 3 (explain p)). symmetry. apply firstn_skipn.
  - all_rules p; simpl; auto.
  - all_rules p; reflexivity.
Qed.

(** The banner is already decided by the top drivers: scanning the first
    three entries and scanning the whole list give the same banner, for
    every profile. *)
Theorem banner_decided_by_top_drivers (p : CustomerProfile) :
  banner (top_drivers (explain p)) = banner (explain p).
Proof.
  all_rules p; reflexivity.
Qed.

End ReasonerMore.

(** * Further properties of the feature encoder *)

Module EncoderMore.

Import Frame Encoder Samples FrameFacts EncoderFacts.

(** ** Positions in a frame without repeated labels *)

Lemma get_loc_from_absent (n : nat) (key : string) (cols : list string) :
  ~ In key cols -> get_loc_from n key cols = [].
Proof.
  revert n. induction cols as [| c cols IH]; intros n Hin; simpl;
    [reflexivity |].
  destruct (String.eqb_spec c key) as [-> | Hne].
  - destruct Hin. now left.
  - simpl. apply IH. intros H. apply Hin. now right.
Qed.

Lemma get_loc_from_NoDup (n : nat) (key : string) (cols : list string) :
  NoDup cols -> In key cols ->
  exists i, get_loc_from n key cols = [(n + i)%nat] /\
            nth_error cols i = Some key.
Proof.
  intros Hnd. revert n. induction Hnd as [| c cols Hc Hnd IH];
    intros n Hin; [destruct Hin |].
  simpl. destruct (String.eqb_spec c key) as [-> | Hne].
  - exists 0%nat. rewrite get_loc_from_absent by exact Hc.
    rewrite Nat.add_0_r. split; reflexivity.
  - destruct Hin as [-> | Hin]; [now destruct Hne |].
    destruct (IH (S n) Hin) as [i [Hloc Hi]].
    exists (S i). rewrite Hloc. simpl. split; [f_equal; lia | exact Hi].
Qed.

Lemma get_loc_from_nonempty (n : nat) (key : string) (cols : list string) :
  In key cols -> (1 <= List.length (get_loc_from n key cols))%nat.
Proof.
  revert n. induction cols as [| c cols IH]; intros n Hin; [destruct Hin |].
  simpl. rewrite length_app.
  destruct (String.eqb_spec c key) as [-> | Hne]; simpl; [lia |].
  destruct Hin as [-> | Hin]; [now destruct Hne |].
  apply IH. exact Hin.
Qed.

(** A positional write is read back under the label of its position. *)
Lemma lookup_iset_same (key : string) (i : nat) (v : Q) (df : DataFrame) :
  NoDup (columns df) ->
  nth_error (columns df) i = Some key ->
  lookup key (iset i v df) = Some v.
Proof.
  revert i. induction df as [| [c x] df IH]; intros [| i] Hnd Hi;
    simpl in *; try discriminate.
  - injection Hi as ->. now rewrite String.eqb_refl.
  - inversion Hnd as [| ? ? Hc Hnd']; subst.
    destruct (String.eqb_spec c key) as [-> | Hne].
    + destruct Hc. eapply nth_error_In. exact Hi.
    + now apply IH.
Qed.

Lemma missing_numeric_NoDup (fc : list string) :
  NoDup fc -> NoDup (fc ++ missing_numeric fc).
Proof.
  intros Hnd. apply NoDup_app; [exact Hnd | |].
  - apply NoDup_filter. unfold numeric_columns.
    repeat (constructor; [simpl; intuition discriminate |]). constructor.
  - intros k Hk Hmiss. unfold missing_numeric in Hmiss.
    apply filter_In in Hmiss. destruct Hmiss as [_ Hneg].
    apply negb_true_iff in Hneg.
    assert (Hex : existsb (String.eqb k) fc = true).
    { apply existsb_exists. exists k. split;
        [exact Hk | apply String.eqb_refl]. }
    congruence.
Qed.

(** Lines 145 to 152 touch the three indicator labels only. *)
Lemma lookup_encode_categoricals_other (k : string) (p : CustomerProfile)
    (df : DataFrame) :
  k <> ("Contract_" ++ contract p)%string ->
  k <> ("InternetService_" ++ internet_service p)%string ->
  k <> "PaperlessBilling" ->
  lookup k (encode_categoricals p df) = lookup k df.
Proof.
  intros Hc Hi Hp. unfold encode_categoricals. cbv zeta.
  apply String.eqb_neq in Hc, Hi, Hp.
  rewrite lookup_guarded, Hp. cbn [andb].
  rewrite lookup_guarded, Hi. cbn [andb].
  rewrite lookup_guarded, Hc. reflexivity.
Qed.


Lemma existsb_eqb_In (k : string) (l : list string) :
  existsb (String.eqb k) l = true <-> In k l.
Proof.
  rewrite existsb_exists. split.
  - intros [x [Hin Heq]]. apply String.eqb_eq in Heq. now subst.
  - intros Hin. exists k. split; [exact Hin | apply String.eqb_refl].
Qed.

Lemma numeric_label_present (k : string) (fc : list string)
    (p : CustomerProfile) :
  In k numeric_columns -> In k (columns (assign_numeric fc p)).
Proof.
  intros Hk. apply has_column_In.
  pose proof (assign_numeric_has_numeric fc p) as H.
  rewrite forallb_forall in H. now apply H.
Qed.

(** The positions the three numeric labels select in a frame without
    repeated labels, and the frame after the scaled row is written back. *)
Lemma scaled_frame_NoDup (fc : list string) (p : CustomerProfile)
    (a b c : Q) :
  NoDup fc ->
  exists i1 i2 i3,
    nth_error (columns (assign_numeric fc p)) i1 = Some "tenure" /\
    nth_error (columns (assign_numeric fc p)) i2 = Some "MonthlyCharges" /\
    nth_error (columns (assign_numeric fc p)) i3 = Some "TotalCharges" /\
    scaled_frame fc p [a; b; c]
    = iset i3 c (iset i2 b (iset i1 a (assign_numeric fc p))).
Proof.
  intros Hnd.
  assert (Hcols : NoDup (columns (assign_numeric fc p))).
  { rewrite columns_assign_numeric. now apply missing_numeric_NoDup. }
  destruct (get_loc_from_NoDup 0 "tenure" _ Hcols
              (numeric_label_present _ fc p (or_introl eq_refl)))
    as [i1 [L1 N1]].
  destruct (get_loc_from_NoDup 0 "MonthlyCharges" _ Hcols
              (numeric_label_present _ fc p (or_intror (or_introl eq_refl))))
    as [i2 [L2 N2]].
  destruct (get_loc_from_NoDup 0 "TotalCharges" _ Hcols
              (numeric_label_present _ fc p
                 (or_intror (or_intror (or_introl eq_refl)))))
    as [i3 [L3 N3]].
  exists i1, i2, i3. repeat split; try assumption.
  unfold scaled_frame, get_indexer, numeric_columns. cbn [flat_map].
  rewrite L1, L2, L3. reflexivity.
Qed.

(** The scaled numbers land under their labels.  With no repeated feature
    name and a scaler that answers the row [a; b; c], the frame is built
    and holds [a] under [tenure], [b] under [MonthlyCharges] and [c] under
    [TotalCharges], wherever these columns stand in the feature list. *)
Theorem scaled_values_under_labels (fc : list string) (scaler : Scaler)
    (p : CustomerProfile) (a b c : Q) :
  NoDup fc ->
  scaler (scaler_batch fc p) = Ok [a; b; c] ->
  exists df,
    input_data fc scaler p = Ok df /\
    lookup "tenure" df = Some a /\
    lookup "MonthlyCharges" df = Some b /\
    lookup "TotalCharges" df = Some c.
Proof.
  intros Hnd Hs.
  assert (Hlen : List.length [a; b; c] = List.length (scaler_batch fc p))
    by now rewrite scaler_batch_NoDup.
  exists (encode_categoricals p (scaled_frame fc p [a; b; c])).
  split; [now apply input_data_built |].
  rewrite !lookup_encode_categoricals_other by discriminate.
  destruct (scaled_frame_NoDup fc p a b c Hnd)
    as [i1 [i2 [i3 [N1 [N2 [N3 ->]]]]]].
  assert (Hcols : NoDup (columns (assign_numeric fc p))).
  { rewrite columns_assign_numeric. now apply missing_numeric_NoDup. }
  repeat split.
  - rewrite !lookup_iset by (rewrite ?columns_iset; congruence).
    now apply lookup_iset_same.
  - rewrite lookup_iset by (rewrite ?columns_iset; congruence).
    apply lookup_iset_same; rewrite columns_iset; assumption.
  - apply lookup_iset_same; rewrite !columns_iset; assumption.
Qed.

(** On a feature list that names the numeric columns last and in another
    order, the standardised values are still found under their labels. *)
Lemma scaled_values_under_labels_witness :
  exists df,
    input_data ["PaperlessBilling"; "TotalCharges"; "tenure";
                "MonthlyCharges"]
               telco_scaler profile_one_year = Ok df /\
    lookup "tenure" df = Some (-27 # 24)%Q /\
    lookup "MonthlyCharges" df = Some (5 # 30)%Q /\
    lookup "TotalCharges" df = Some (-1930 # 2266)%Q.
Proof.
  apply scaled_values_under_labels.
  - repeat (constructor; [simpl; intuition discriminate |]). constructor.
  - reflexivity.
Defined.

(** The selection of line 141 cannot fail: after lines 135 to 137 the three
    numeric labels name columns whatever the feature list is, the empty
    list included, so no [KeyError] is raised and the scaler receives a row
    of at least three cells. *)
Theorem numeric_selection_never_fails (fc : list string)
    (p : CustomerProfile) :
  getitem_list numeric_columns (assign_numeric fc p)
    = Ok (scaler_batch fc p) /\
  (3 <= List.length (scaler_batch fc p))%nat.
Proof.
  split; [apply getitem_assign_numeric |].
  rewrite scaler_batch_length. unfold get_indexer, numeric_columns.
  cbn [flat_map]. rewrite !length_app.
  pose proof (get_loc_from_nonempty 0 _ _
                (numeric_label_present "tenure" fc p (or_introl eq_refl))).
  pose proof (get_loc_from_nonempty 0 _ _
                (numeric_label_present "MonthlyCharges" fc p
                   (or_intror (or_introl eq_refl)))).
  pose proof (get_loc_from_nonempty 0 _ _
                (numeric_label_present "TotalCharges" fc p
                   (or_intror (or_intror (or_introl eq_refl))))).
  lia.
Qed.


(** Whatever frame was built is the guarded assignments applied to a
    scaled frame. *)
Lemma input_data_Ok_inv (fc : list string) (scaler : Scaler)
    (p : CustomerProfile) (df : DataFrame) :
  input_data fc scaler p = Ok df ->
  exists scaled, df = encode_categoricals p (scaled_frame fc p scaled).
Proof.
  rewrite input_data_unfold.
  destruct (scaler (scaler_batch fc p)) as [scaled | e]; [| discriminate].
  destruct (List.length scaled =? _)%nat; [| discriminate].
  intros H. injection H as <-. now exists scaled.
Qed.



(** A cell that holds 1 under a label of the contract family belongs to
    the contract of the profile, and likewise for the internet family. *)
Lemma contract_cell_set (fc : list string) (p : CustomerProfile)
    (scaled : list Q) (c : string) :
  In (("Contract_" ++ c)%string, 1%Q)
     (encode_categoricals p (scaled_frame fc p scaled)) ->
  c = contract p.
Proof.
  rewrite In_cells, cells_contract_family, cells_scaled_frame
    by apply contract_label_not_numeric.
  rewrite indicator_cells_on. unfold indicator_cells. intros Hin.
  apply repeat_spec in Hin.
  destruct (String.eqb_spec c (contract p)) as [E | E]; [exact E |].
  simpl in Hin. discriminate.
Qed.

Lemma internet_cell_set (fc : list string) (p : CustomerProfile)
    (scaled : list Q) (i : string) :
  In (("InternetService_" ++ i)%string, 1%Q)
     (encode_categoricals p (scaled_frame fc p scaled)) ->
  i = internet_service p.
Proof.
  rewrite In_cells, cells_internet_family, cells_scaled_frame
    by apply internet_label_not_numeric.
  rewrite indicator_cells_on. unfold indicator_cells. intros Hin.
  apply repeat_spec in Hin.
  destruct (String.eqb_spec i (internet_service p)) as [E | E];
    [exact E |].
  simpl in Hin. discriminate.
Qed.

(** Two positions of a frame without repeated labels that carry the same
    label are the same position. *)
Lemma same_label_same_position (df : DataFrame) (j1 j2 : nat)
    (k : string) (x1 x2 : Q) :
  NoDup (columns df) ->
  nth_error df j1 = Some (k, x1) ->
  nth_error df j2 = Some (k, x2) ->
  j1 = j2.
Proof.
  intros Hnd H1 H2.
  assert (C1 : nth_error (columns df) j1 = Some k)
    by (unfold columns; now rewrite (map_nth_error fst _ _ H1)).
  assert (C2 : nth_error (columns df) j2 = Some k)
    by (unfold columns; now rewrite (map_nth_error fst _ _ H2)).
  rewrite NoDup_nth_error in Hnd. apply Hnd; [| congruence].
  apply nth_error_Some. congruence.
Qed.

(** The dummy columns are one-hot.  With no repeated feature name, in a
    frame that was built a column [Contract_<c>] holds 1 exactly when [c]
    is the contract of the profile, that contract is not month-to-month and
    the feature list has the label; and two positions of the frame that
    hold 1 under labels of the contract family are the same position, so at
    most one contract column holds 1 (none for a month-to-month customer).
    The same holds of the [InternetService_<i>] columns with DSL as the
    baseline. *)
Theorem indicators_one_hot (fc : list string) (scaler : Scaler)
    (p : CustomerProfile) (df : DataFrame) :
  NoDup fc ->
  input_data fc scaler p = Ok df ->
  (forall c,
     lookup ("Contract_" ++ c)%string df = Some 1%Q <->
     c = contract p /\ contract p <> "Month-to-month" /\
     In ("Contract_" ++ c)%string fc) /\
  (forall i,
     lookup ("InternetService_" ++ i)%string df = Some 1%Q <->
     i = internet_service p /\ internet_service p <> "DSL" /\
     In ("InternetService_" ++ i)%string fc) /\
  (forall j1 j2 c1 c2,
     nth_error df j1 = Some (("Contract_" ++ c1)%string, 1%Q) ->
     nth_error df j2 = Some (("Contract_" ++ c2)%string, 1%Q) ->
     j1 = j2) /\
  (forall j1 j2 i1 i2,
     nth_error df j1 = Some (("InternetService_" ++ i1)%string, 1%Q) ->
     nth_error df j2 = Some (("InternetService_" ++ i2)%string, 1%Q) ->
     j1 = j2).
Proof.
  intros Hnd Hdf. destruct (input_data_Ok_inv _ _ _ _ Hdf) as [scaled ->].
  assert (Hcols : NoDup (columns
                    (encode_categoricals p (scaled_frame fc p scaled)))).
  { rewrite columns_encode_categoricals, columns_scaled_frame.
    now apply missing_numeric_NoDup. }
  split; [| split; [| split]].
  - intros c. destruct (string_dec c (contract p)) as [-> | Hne].
    + rewrite lookup_contract_indicator, lookup_scaled_frame
        by apply contract_label_not_numeric.
      rewrite <- existsb_eqb_In.
      destruct (String.eqb_spec (contract p) "Month-to-month");
        destruct (existsb (String.eqb ("Contract_" ++ contract p)%string) fc);
        simpl; split; intros H; try discriminate;
        try (decompose [and] H; try contradiction; discriminate);
        auto.
    + rewrite lookup_encode_categoricals_other;
        [| intros H; injection H as H; contradiction
         | discriminate | discriminate].
      rewrite lookup_scaled_frame by apply contract_label_not_numeric.
      split.
      * destruct (existsb _ fc); discriminate.
      * intros [H _]. contradiction.
  - intros i. destruct (string_dec i (internet_service p)) as [-> | Hne].
    + rewrite lookup_internet_indicator, lookup_scaled_frame
        by apply internet_label_not_numeric.
      rewrite <- existsb_eqb_In.
      destruct (String.eqb_spec (internet_service p) "DSL");
        destruct (existsb
                    (String.eqb
                       ("InternetService_" ++ internet_service p)%string) fc);
        simpl; split; intros H; try discriminate;
        try (decompose [and] H; try contradiction; discriminate);
        auto.
    + rewrite lookup_encode_categoricals_other;
        [| discriminate
         | intros H; injection H as H; contradiction
         | discriminate].
      rewrite lookup_scaled_frame by apply internet_label_not_numeric.
      split.
      * destruct (existsb _ fc); discriminate.
      * intros [H _]. contradiction.
  - intros j1 j2 c1 c2 H1 H2.
    pose proof (contract_cell_set fc p scaled c1 (nth_error_In _ _ H1)).
    pose proof (contract_cell_set fc p scaled c2 (nth_error_In _ _ H2)).
    subst c1 c2. exact (same_label_same_position _ _ _ _ _ _ Hcols H1 H2).
  - intros j1 j2 i1 i2 H1 H2.
    pose proof (internet_cell_set fc p scaled i1 (nth_error_In _ _ H1)).
    pose proof (internet_cell_set fc p scaled i2 (nth_error_In _ _ H2)).
    subst i1 i2. exact (same_label_same_position _ _ _ _ _ _ Hcols H1 H2).
Qed.

(** For a one-year customer without internet service the one-year column
    and the no-internet column hold 1. *)
Lemma indicators_one_hot_witness :
  exists df,
    input_data telco_columns telco_scaler profile_one_year = Ok df /\
    lookup "Contract_One year" df = Some 1%Q /\
    lookup "InternetService_No" df = Some 1%Q.
Proof.
  eexists. split; [vm_compute; reflexivity |].
  assert (Hnd : NoDup telco_columns).
  { unfold telco_columns.
    repeat (constructor; [simpl; intuition discriminate |]). constructor. }
  destruct (indicators_one_hot telco_columns telco_scaler profile_one_year
              _ Hnd eq_refl) as [Hc [Hi _]].
  split; [apply (Hc "One year") | apply (Hi "No")]; simpl;
    (split; [reflexivity | split; [discriminate | auto 10]]).
Defined.



End EncoderMore.

(** * The reason generator reads its arguments only *)

Module PurityFacts.

Import Reasoner Python Samples ReasonerFacts.

(** Running the body on any arguments of the widgets' types, in any global
    scope, returns the list the rule table gives and leaves the global
    scope as it was. *)
Lemma call_generate_reasons (G : scope) (t : Z) (m : Q) (c i b : string) :
  call generate_reasons_def [VInt t; VFloat m; VStr c; VStr i; VStr b] G
  = Some (VList (generate_reasons_with_severity t m c i b), G).
Proof.
  cbv - [Z.ltb Qgtb py_str_eq generate_reasons_with_severity].
  unfold generate_reasons_with_severity, append, py_str_eq.
  change (70 # 1)%Q with 70%Q. change (50 # 1)%Q with 50%Q.
  destruct (t <? 12)%Z; [| destruct (t <? 24)%Z];
    destruct (c =? "Month-to-month");
    (destruct (Qgtb m 70); [| destruct (Qgtb m 50)]);
    destruct (i =? "Fiber optic");
    destruct (b =? "Yes"); reflexivity.
Qed.


Lemma line_176_args (p : CustomerProfile) (rest : scope) :
  eval_args [EName "tenure"; EName "monthly_charges"; EName "contract";
             EName "internet_service"; EName "paperless_billing"]
            (mkState [] (widget_globals p ++ rest))
  = Some [VInt (tenure p); VFloat (monthly_charges p); VStr (contract p);
          VStr (internet_service p); VStr (paperless_billing p)].
Proof.
  reflexivity.
Qed.

(** C9: the reason generator is deterministic and pure.  Called with a
    tenure, monthly charges and the three choices, in any global scope
    (whatever the module has bound, names of the parameters and a global
    [reasons] included), the function returns the list of the rule table
    and leaves the global scope exactly as it was: every name of the body
    is a parameter or the local [reasons], nothing is read from or written
    to the module, and the list that grows is the one the call created.
    The call of line 176 therefore returns [explain] of the widgets' values
    and changes nothing.  So two calls with the same inputs (the charges
    equal as numbers) return the same sequence, same titles, severities,
    explanations and order, whatever the global scopes are. *)
Theorem generate_reasons_pure :
  (forall (G : scope) (t : Z) (m : Q) (c i b : string),
     call generate_reasons_def
          [VInt t; VFloat m; VStr c; VStr i; VStr b] G
     = Some (VList (generate_reasons_with_severity t m c i b), G)) /\
  (forall (p : CustomerProfile) (rest : scope),
     line_176 (widget_globals p ++ rest)
     = Some (VList (explain p), widget_globals p ++ rest)) /\
  (forall (G1 G2 : scope) (t : Z) (m1 m2 : Q) (c i b : string),
     (m1 == m2)%Q ->
     option_map fst
       (call generate_reasons_def
             [VInt t; VFloat m1; VStr c; VStr i; VStr b] G1)
     = option_map fst
         (call generate_reasons_def
               [VInt t; VFloat m2; VStr c; VStr i; VStr b] G2)).
Proof.
  split; [exact call_generate_reasons | split].
  - intros p rest. unfold line_176. rewrite line_176_args.
    apply call_generate_reasons.
  - intros G1 G2 t m1 m2 c i b Hm. rewrite !call_generate_reasons. simpl.
    unfold generate_reasons_with_severity.
    now rewrite (Qgtb_compat _ _ 70 Hm), (Qgtb_compat _ _ 50 Hm).
Qed.

(** The same call in two different module scopes, one of which binds the
    names [tenure] and [reasons] to other values, with charges of 70
    entered as 70 and as 140/2. *)
Lemma generate_reasons_pure_witness :
  option_map fst
    (call generate_reasons_def
          [VInt 12; VFloat 70; VStr "One year"; VStr "Fiber optic";
           VStr "Yes"]
          [("tenure", VInt 3); ("reasons", VList [low_tenure])])
  = option_map fst
      (call generate_reasons_def
            [VInt 12; VFloat (140 # 2); VStr "One year"; VStr "Fiber optic";
             VStr "Yes"]
            [("scaler", VObject 0)]).
Proof.
  apply (proj2 (proj2 generate_reasons_pure)). reflexivity.
Defined.

(** A body that appended to a list of the module would change the global
    scope: the interpreter tells the two apart. *)
Example append_to_global_is_visible :
  call (mkFunc ["tenure"] (SAppend "log" (ETuple low_tenure) ;;
                           SReturn (EName "tenure")))
       [VInt 3] [("log", VList [])]
  = Some (VInt 3, [("log", VList [low_tenure])]).
Proof.
  reflexivity.
Qed.

(** A body that read a name it was not given would depend on the module. *)
Example global_read_is_visible :
  call (mkFunc ["months"] (SReturn (ELt (EName "tenure") (EInt 12))))
       [VInt 30] [("tenure", VInt 3)]
  = Some (VBool true, [("tenure", VInt 3)]).
Proof.
  reflexivity.
Qed.

End PurityFacts.
